(** * Gateway / user-service: handlers, store access and shutdown

    A shallow embedding of the two Express applications of the repository:

    - [UserService]: apps/user-service/src/index.js (the data service, backed
      by a Redis key holding the whole user collection as one JSON blob);
    - [Gateway]: the api-gateway index.js (forwards /api/users to the data
      service through axios).

    Logging (winston) never influences a response or the store and is left
    out; of the metrics (prom-client) the labels of the request counter are
    kept.  Redis, axios, [uuidv4] and [Date] are the environment: every Redis
    command may reject or stay pending, every axios call may resolve, reject
    or stay pending, identifiers and timestamps are read from oracles.
    Strings are held as their UTF-8 bytes. *)

From Stdlib Require Import ZArith List String Ascii Bool Arith Lia.
From Stdlib Require PrimFloat.
Import ListNotations.
Open Scope string_scope.
Open Scope list_scope.

(* ------------------------------------------------------------------ *)
(** ** JavaScript values as they occur in parsed JSON bodies *)

Module JS.

(** A number is a double, as [JSON.parse] yields it: a JSON number beyond
    the range of a double is [Infinity] (as [1e400]), one below its precision
    is the nearest double. *)
Definition number : Type := PrimFloat.float.

(** [Undefined] is the value of a property that the body does not carry.
    [Ref] stands for any object or array: always truthy, and never [===] to
    a value obtained from another [JSON.parse]. *)
Inductive value : Type :=
| Undefined
| Null
| Bool (b : bool)
| Num (n : number)
| Str (s : string)
| Ref.

(** ToBoolean, as used by [!v], [v ? a : b] and [a || b]: of the numbers,
    the two zeros and [NaN] are falsy. *)
Definition truthy (v : value) : bool :=
  match v with
  | Undefined | Null => false
  | Bool b => b
  | Num n => negb (PrimFloat.is_zero n || PrimFloat.is_nan n)
  | Str s => negb (s =? "")
  | Ref => true
  end.

(** [a === b]; on numbers the comparison of IEEE 754. *)
Definition strict_eq (a b : value) : bool :=
  match a, b with
  | Undefined, Undefined => true
  | Null, Null => true
  | Bool x, Bool y => Bool.eqb x y
  | Num x, Num y => PrimFloat.eqb x y
  | Str x, Str y => (x =? y)
  | _, _ => false
  end.

(** [a || b] *)
Definition or_else (a b : value) : value := if truthy a then a else b.

(** [JSON.parse(JSON.stringify(v))] for a value [v] held by a property: what
    a value is once it has been written as JSON and read back.  A finite
    number comes back as it was (the negative zero as zero), [Infinity],
    [-Infinity] and [NaN] come back as [null]; a property that is
    [undefined] is left out and so is [undefined] again. *)
Definition json (v : value) : value :=
  match v with
  | Num n =>
      if PrimFloat.is_finite n
      then Num (if PrimFloat.is_zero n then PrimFloat.zero else n)
      else Null
  | _ => v
  end.

(** *** [decodeURIComponent]

    Every escape [%XY] is replaced by the byte it writes.  A URIError is
    thrown ([None]) at a [%] that is not followed by two hexadecimal digits,
    and at escaped bytes that are not the UTF-8 encoding of a code point. *)

Definition hex_digit (c : ascii) : option N :=
  let n := N_of_ascii c in
  if (48 <=? n)%N && (n <=? 57)%N then Some (n - 48)%N
  else if (65 <=? n)%N && (n <=? 70)%N then Some (n - 55)%N
  else if (97 <=? n)%N && (n <=? 102)%N then Some (n - 87)%N
  else None.

(** The bytes of the string, each with whether an escape wrote it. *)
Fixpoint unescape (s : string) : option (list (bool * N)) :=
  match s with
  | EmptyString => Some []
  | String c rest =>
      if Ascii.eqb c "%"
      then match rest with
           | String h (String l rest') =>
               match hex_digit h, hex_digit l, unescape rest' with
               | Some x, Some y, Some bytes => Some ((true, 16 * x + y)%N :: bytes)
               | _, _, _ => None
               end
           | _ => None
           end
      else match unescape rest with
           | Some bytes => Some ((false, N_of_ascii c) :: bytes)
           | None => None
           end
  end.

(** An escaped byte between [lo] and [hi]. *)
Definition escaped_in (lo hi : N) (x : bool * N) : bool :=
  (fst x && (lo <=? snd x) && (snd x <=? hi))%N.

(** The escaped bytes above 127 form well-formed UTF-8 sequences (two to
    four bytes, no overlong form, no surrogate, nothing above U+10FFFF). *)
Fixpoint well_formed (bytes : list (bool * N)) : bool :=
  match bytes with
  | [] => true
  | (false, _) :: rest => well_formed rest
  | (true, b) :: rest =>
      if (b <? 128)%N then well_formed rest
      else
        match rest with
        | [] => false
        | x1 :: rest1 =>
            if (194 <=? b)%N && (b <=? 223)%N
            then escaped_in 128 191 x1 && well_formed rest1
            else
              match rest1 with
              | [] => false
              | x2 :: rest2 =>
                  if (224 <=? b)%N && (b <=? 239)%N
                  then escaped_in (if (b =? 224)%N then 160 else 128)
                                  (if (b =? 237)%N then 159 else 191) x1
                       && escaped_in 128 191 x2 && well_formed rest2
                  else
                    match rest2 with
                    | [] => false
                    | x3 :: rest3 =>
                        (240 <=? b)%N && (b <=? 244)%N
                        && escaped_in (if (b =? 240)%N then 144 else 128)
                                      (if (b =? 244)%N then 143 else 191) x1
                        && escaped_in 128 191 x2 && escaped_in 128 191 x3
                        && well_formed rest3
                    end
              end
        end
  end.

Fixpoint string_of_bytes (bytes : list (bool * N)) : string :=
  match bytes with
  | [] => EmptyString
  | (_, b) :: rest => String (ascii_of_N b) (string_of_bytes rest)
  end.

Definition decodeURIComponent (s : string) : option string :=
  match unescape s with
  | Some bytes => if well_formed bytes then Some (string_of_bytes bytes) else None
  | None => None
  end.

End JS.

(* ------------------------------------------------------------------ *)
(** ** Records, response bodies and HTTP responses *)

(** A stored user: [{ id, name, email, role, createdAt }]. *)
Record user : Type := mkUser {
  id : string;
  name : JS.value;
  email : JS.value;
  role : JS.value;
  createdAt : string
}.

(** A user as JSON writes it and reads it back; [id] and [createdAt] are
    strings. *)
Definition json_user (u : user) : user :=
  mkUser (id u) (JS.json (name u)) (JS.json (email u)) (JS.json (role u)) (createdAt u).

(** The JSON documents the two services send. *)
Inductive body : Type :=
| NoBody                                              (* res.send() *)
| StringBody (s : string)                             (* a JSON string *)
| ErrorBody (error : string)                          (* { error } *)
| StatusBody (status : string)                        (* { status } *)
| HealthBody (status service timestamp : string)      (* { status, service, timestamp } *)
| ReadyBody (status dependency state : string)        (* { status, dependencies: { dependency: state } } *)
| UsersBody (data : list user) (total : nat)          (* { data, total } *)
| UserBody (u : user)
| MetricsBody.

Record response : Type := mkResponse {
  statusCode : Z;
  payload : body
}.

(** [res.json(b)] on a fresh response: the status stays 200. *)
Definition res_json (b : body) : response := mkResponse 200 b.
(** [res.status(c).json(b)] *)
Definition res_status_json (c : Z) (b : body) : response := mkResponse c b.
(** [res.status(c).send()] *)
Definition res_status_send (c : Z) : response := mkResponse c NoBody.

(** The destructured request body of POST /users: [{ name, email, role }]. *)
Record create_body : Type := mkBody {
  body_name : JS.value;
  body_email : JS.value;
  body_role : JS.value
}.

(** The body as [JSON.stringify] writes it and the receiver reads it. *)
Definition json_body (b : create_body) : create_body :=
  mkBody (JS.json (body_name b)) (JS.json (body_email b)) (JS.json (body_role b)).

Inductive method : Type := GET | POST | DELETE.

Record request : Type := mkRequest {
  req_method : method;
  req_path : list string;          (* the path split at "/" *)
  req_body : create_body
}.

(* ------------------------------------------------------------------ *)
(** ** The data service *)

Module UserService.

Definition USERS_KEY : string := "users".

(** What is stored under a key.  The key is written by this service only,
    always as [JSON.stringify] of an array of users, so a blob is the
    serialisation of a user list; [JSON_parse] reads the users back as JSON
    keeps them. *)
Inductive blob : Type :=
| JSON_stringify (users : list user).

Definition JSON_parse (b : blob) : list user :=
  match b with JSON_stringify users => map json_user users end.

Inductive command : Type :=
| CONNECT
| PING
| EXISTS (key : string)
| GET_ (key : string)
| SET_ (key : string) (v : blob)
| QUIT.

(** The process and its environment.
    - [kv]: contents of the Redis server;
    - [outage n]: the [n]-th Redis command issued by the process rejects
      (connection lost, retries exhausted);
    - [trace]: the commands issued so far, most recent first;
    - [uuid_src], [clock_src]: the values [uuidv4()] and
      [new Date().toISOString()] yield, with the number of reads so far. *)
Record world : Type := mkWorld {
  kv : string -> option blob;
  outage : nat -> bool;
  trace : list command;
  uuid_src : nat -> string;
  uuid_used : nat;
  clock_src : nat -> string;
  clock_used : nat
}.

Definition exn : Type := string.

Inductive outcome (A : Type) : Type :=
| Returned (a : A)
| Thrown (e : exn).
Arguments Returned {A} a.
Arguments Thrown {A} e.

(** Computations that read and change the world and may throw. *)
Definition M (A : Type) : Type := world -> outcome A * world.

Definition ret {A} (a : A) : M A := fun w => (Returned a, w).

Definition bind {A B} (m : M A) (k : A -> M B) : M B :=
  fun w =>
    match m w with
    | (Returned a, w') => k a w'
    | (Thrown e, w') => (Thrown e, w')
    end.

(** [try { m } catch (error) { h error }] *)
Definition try_catch {A} (m : M A) (h : exn -> M A) : M A :=
  fun w =>
    match m w with
    | (Returned a, w') => (Returned a, w')
    | (Thrown e, w') => h e w'
    end.

Declare Scope js_scope.
Delimit Scope js_scope with js.
Notation "'await' x <- m ; k" := (bind m (fun x => k))
  (at level 10, x name, m at level 100, k at level 200) : js_scope.
Notation "'await_' m ; k" := (bind m (fun _ => k))
  (at level 10, m at level 100, k at level 200) : js_scope.
Open Scope js_scope.

Definition set_kv (key : string) (v : blob) (w : world) : world :=
  mkWorld (fun k => if (k =? key) then Some v else kv w k)
          (outage w) (trace w) (uuid_src w) (uuid_used w) (clock_src w) (clock_used w).

Definition record_command (c : command) (w : world) : world :=
  mkWorld (kv w) (outage w) (c :: trace w)
          (uuid_src w) (uuid_used w) (clock_src w) (clock_used w).

(** Issue one Redis command: it is recorded, then either rejects or replies
    and takes effect on the server.  This is how a command settles; when it
    does, and whether it does at all, is told apart below ([timing]). *)
Definition issue {A} (c : command) (reply : world -> A) (effect : world -> world) : M A :=
  fun w =>
    if outage w (List.length (trace w))
    then (Thrown "Redis command failed", record_command c w)
    else (Returned (reply w), effect (record_command c w)).

Definition redis_connect : M unit := issue CONNECT (fun _ => tt) (fun w => w).
Definition redis_ping : M string := issue PING (fun _ => "PONG") (fun w => w).
Definition redis_quit : M string := issue QUIT (fun _ => "OK") (fun w => w).

(** [redis.exists(key)]: the number of the given keys that exist. *)
Definition redis_exists (key : string) : M Z :=
  issue (EXISTS key) (fun w => match kv w key with Some _ => 1%Z | None => 0%Z end)
        (fun w => w).

(** [redis.get(key)]: the stored string, or [null]. *)
Definition redis_get (key : string) : M (option blob) :=
  issue (GET_ key) (fun w => kv w key) (fun w => w).

Definition redis_set (key : string) (v : blob) : M string :=
  issue (SET_ key v) (fun _ => "OK") (set_kv key v).

Definition uuidv4 : M string :=
  fun w => (Returned (uuid_src w (uuid_used w)),
            mkWorld (kv w) (outage w) (trace w)
                    (uuid_src w) (S (uuid_used w)) (clock_src w) (clock_used w)).

(** [new Date().toISOString()] *)
Definition Date_toISOString : M string :=
  fun w => (Returned (clock_src w (clock_used w)),
            mkWorld (kv w) (outage w) (trace w)
                    (uuid_src w) (uuid_used w) (clock_src w) (S (clock_used w))).

(** [data ? JSON.parse(data) : []] *)
Definition parse_users (data : option blob) : list user :=
  match data with
  | Some b => JSON_parse b
  | None => []
  end.

(** [users.findIndex(p)]: index of the first match, [-1] without one. *)
Fixpoint findIndex_from (p : user -> bool) (users : list user) (i : Z) : Z :=
  match users with
  | [] => (-1)%Z
  | u :: rest => if p u then i else findIndex_from p rest (i + 1)%Z
  end.
Definition findIndex (p : user -> bool) (users : list user) : Z :=
  findIndex_from p users 0%Z.

(** [users.splice(index, 1)] for [index >= 0]: the array without the element
    at [index] (unchanged when [index] is past the end). *)
Fixpoint splice1 (users : list user) (index : nat) : list user :=
  match users, index with
  | [], _ => []
  | _ :: rest, O => rest
  | u :: rest, S i => u :: splice1 rest i
  end.

Definition has_id (i : string) (u : user) : bool := (id u =? i).
Definition has_email (e : JS.value) (u : user) : bool := JS.strict_eq (email u) e.

(** *** Handlers *)

(** GET /health *)
Definition health : M response :=
  await now <- Date_toISOString;
  ret (res_json (HealthBody "healthy" "user-service" now)).

(** GET /health/live *)
Definition health_live : M response :=
  ret (res_json (StatusBody "alive")).

(** GET /health/ready *)
Definition health_ready : M response :=
  try_catch
    (await_ redis_ping;
     ret (res_json (ReadyBody "ready" "redis" "up")))
    (fun _ => ret (res_status_json 503 (ReadyBody "not ready" "redis" "down"))).

Definition sampleUsers : M (list user) :=
  await i1 <- uuidv4; await t1 <- Date_toISOString;
  await i2 <- uuidv4; await t2 <- Date_toISOString;
  await i3 <- uuidv4; await t3 <- Date_toISOString;
  ret [ mkUser i1 (JS.Str "John Doe") (JS.Str "john@example.com") (JS.Str "admin") t1;
        mkUser i2 (JS.Str "Jane Smith") (JS.Str "jane@example.com") (JS.Str "user") t2;
        mkUser i3 (JS.Str "Bob Wilson") (JS.Str "bob@example.com") (JS.Str "user") t3 ].

Definition initializeData : M unit :=
  try_catch
    (await_ redis_connect;
     await exists_ <- redis_exists USERS_KEY;
     if (exists_ =? 0)%Z
     then (await sample <- sampleUsers;
           await_ redis_set USERS_KEY (JSON_stringify sample);
           ret tt)
     else ret tt)
    (fun _ => ret tt).

(** GET /users *)
Definition get_users : M response :=
  try_catch
    (await data <- redis_get USERS_KEY;
     let users := parse_users data in
     ret (res_json (UsersBody users (List.length users))))
    (fun _ => ret (res_status_json 500 (ErrorBody "Failed to retrieve users"))).

(** GET /users/:id *)
Definition get_user (param_id : string) : M response :=
  try_catch
    (await data <- redis_get USERS_KEY;
     let users := parse_users data in
     match find (has_id param_id) users with
     | None => ret (res_status_json 404 (ErrorBody "User not found"))
     | Some u => ret (res_json (UserBody u))
     end)
    (fun _ => ret (res_status_json 500 (ErrorBody "Failed to retrieve user"))).

(** POST /users *)
Definition post_users (b : create_body) : M response :=
  try_catch
    (let name := body_name b in
     let email := body_email b in
     let role := body_role b in
     if negb (JS.truthy name) || negb (JS.truthy email)
     then ret (res_status_json 400 (ErrorBody "Name and email are required"))
     else
       await data <- redis_get USERS_KEY;
       let users := parse_users data in
       match find (has_email email) users with
       | Some _ => ret (res_status_json 409 (ErrorBody "Email already exists"))
       | None =>
           await new_id <- uuidv4;
           await now <- Date_toISOString;
           let newUser := mkUser new_id name email (JS.or_else role (JS.Str "user")) now in
           await_ redis_set USERS_KEY (JSON_stringify (users ++ [newUser]));
           (* the document sent is the serialisation of [newUser] *)
           ret (res_status_json 201 (UserBody (json_user newUser)))
       end)
    (fun _ => ret (res_status_json 500 (ErrorBody "Failed to create user"))).

(** DELETE /users/:id *)
Definition delete_user (param_id : string) : M response :=
  try_catch
    (await data <- redis_get USERS_KEY;
     let users := parse_users data in
     let index := findIndex (has_id param_id) users in
     if (index =? -1)%Z
     then ret (res_status_json 404 (ErrorBody "User not found"))
     else
       await_ redis_set USERS_KEY (JSON_stringify (splice1 users (Z.to_nat index)));
       ret (res_status_send 204))
    (fun _ => ret (res_status_json 500 (ErrorBody "Failed to delete user"))).

(** *** Routing

    Express keeps the routes in the order of their registration and gives a
    request to the first one whose method and path pattern match; the 404
    middleware registered after them takes what is left.  A path is the list
    of the segments between its slashes, as sent. *)

Inductive segment : Type :=
| Lit (s : string)        (* a literal segment, as "users" *)
| Param.                  (* a parameter, as ":id" *)

(** Lower case of the ASCII letters. *)
Definition lower_ascii (c : ascii) : ascii :=
  let n := nat_of_ascii c in
  if (65 <=? n)%nat && (n <=? 90)%nat then ascii_of_nat (n + 32) else c.

Fixpoint lower (s : string) : string :=
  match s with
  | EmptyString => EmptyString
  | String c s' => String (lower_ascii c) (lower s')
  end.

(** The parameters a path binds when it matches a pattern.  Routing has the
    defaults of Express: it is not case sensitive (literal segments are
    compared without regard to the case of ASCII letters) and not strict (one
    slash at the end of the path is ignored); a parameter binds a segment
    that is not empty. *)
Fixpoint match_path (pattern : list segment) (path : list string) : option (list string) :=
  match pattern, path with
  | [], [] => Some []
  | [], [EmptyString] => Some []
  | Lit s :: pattern', x :: path' =>
      if lower x =? lower s then match_path pattern' path' else None
  | Param :: pattern', x :: path' =>
      if x =? "" then None
      else match match_path pattern' path' with
           | Some params => Some (x :: params)
           | None => None
           end
  | _, _ => None
  end.

Definition method_eqb (a b : method) : bool :=
  match a, b with
  | GET, GET | POST, POST | DELETE, DELETE => true
  | _, _ => false
  end.

Record route : Type := mkRoute {
  route_method : method;
  route_pattern : list segment;
  route_handler : list string -> create_body -> M response
}.

(** [req.params.id] of a route with one parameter. *)
Definition params_id (params : list string) : string := hd "" params.

Definition routes : list route :=
  [ mkRoute GET [Lit "metrics"] (fun _ _ => ret (res_json MetricsBody));
    mkRoute GET [Lit "health"] (fun _ _ => health);
    mkRoute GET [Lit "health"; Lit "live"] (fun _ _ => health_live);
    mkRoute GET [Lit "health"; Lit "ready"] (fun _ _ => health_ready);
    mkRoute GET [Lit "users"] (fun _ _ => get_users);
    mkRoute GET [Lit "users"; Param] (fun params _ => get_user (params_id params));
    mkRoute POST [Lit "users"] (fun _ b => post_users b);
    mkRoute DELETE [Lit "users"; Param] (fun params _ => delete_user (params_id params)) ].

(** The route table for a request whose body has been parsed and whose path
    holds no escape: the first route with the method and a matching path
    handles it.  ([app], below, is the whole application, with what
    [express.json()], the decoding of parameters and the error middleware
    add.) *)
Fixpoint dispatch (rs : list route) (r : request) : M response :=
  match rs with
  | [] => ret (res_status_json 404 (ErrorBody "Not found"))
  | rt :: rest =>
      if method_eqb (route_method rt) (req_method r)
      then match match_path (route_pattern rt) (req_path r) with
           | Some params => route_handler rt params (req_body r)
           | None => dispatch rest r
           end
      else dispatch rest r
  end.

Definition serve (r : request) : M response := dispatch routes r.

(** *** Shutdown

    [handleGracefulShutdown] registers two things: the callback of
    [server.close], and a timer.  Each of them ends in [process.exit]; the
    process ends at the first one reached.  Times are milliseconds after the
    signal. *)

Definition SHUTDOWN_TIMEOUT_MS : N := 30000.

Record exit_call : Type := mkExit {
  exit_at : N;
  exit_code : Z
}.

(** When and how [server.close] invokes its callback (after the listener
    has stopped and the open connections have ended), and when and how
    [redis.quit()] settles. *)
Record closing : Type := mkClosing {
  closed_after : N;
  close_err : bool
}.

Record quitting : Type := mkQuitting {
  quit_after : N;
  quit_rejects : bool
}.

(** [None]: the callback is never invoked, the promise never settles. *)
Record shutdown_env : Type := mkShutdownEnv {
  server_close : option closing;
  quit : option quitting
}.

(** What a call of [handleGracefulShutdown] leaves scheduled. *)
Record scheduled : Type := mkScheduled {
  orderly : option exit_call;      (* the exit at the end of the close callback *)
  forced : exit_call               (* the exit of the timer *)
}.

(** The callback given to [server.close]: [redis.quit()] is awaited inside a
    try/catch of its own, then [process.exit(err ? 1 : 0)]. *)
Definition on_server_closed (env : shutdown_env) (c : closing) : option exit_call :=
  match quit env with
  | Some q => Some (mkExit (closed_after c + quit_after q)%N (if close_err c then 1 else 0)%Z)
  | None => None
  end.

(** [server] is [undefined] until [start] has called [app.listen]. *)
Definition handleGracefulShutdown (server : bool) (env : shutdown_env) : scheduled :=
  mkScheduled
    (if server
     then match server_close env with
          | Some c => on_server_closed env c
          | None => None
          end
     else None)
    (mkExit SHUTDOWN_TIMEOUT_MS 1).

(** The first [process.exit] reached ends the process; the orderly one has
    to come strictly before the timer. *)
Definition process_exit (s : scheduled) : exit_call :=
  match orderly s with
  | Some e => if (exit_at e <? exit_at (forced s))%N then e else forced s
  | None => forced s
  end.

(** *** Startup

    [start] awaits [initializeData] and then calls [app.listen]; its value
    here is whether the [server] variable has been set, once the commands it
    awaits have settled ([timed] below says when, if ever). *)

Definition start : M bool :=
  await_ initializeData;
  ret true.

(** *** Request metrics

    The middleware registered before the routes counts every finished
    response under the labels [{ method, route, status }], the route being
    [req.route.path] of the route that handled the request, or 'unmatched'.
    (The duration histogram is left out.) *)

Record labels : Type := mkLabels {
  label_method : method;
  label_route : string;
  label_status : Z
}.

(** The path a pattern was registered with; every parameter of this
    application is called [id]. *)
Fixpoint route_path (pattern : list segment) : string :=
  match pattern with
  | [] => ""
  | Lit s :: pattern' => ("/" ++ s ++ route_path pattern')%string
  | Param :: pattern' => ("/:id" ++ route_path pattern')%string
  end.

(** *** The application

    A request passes [express.json()], the metrics middleware, the routes,
    the 404 middleware and the error middleware, in the order of their
    registration.  The methods are those the routes are registered for. *)

(** What [express.json()] makes of the request: the parsed body (the empty
    object when there is no JSON body), or an error handed to [next]
    (malformed JSON, a body that is not an object or array, an unsupported
    encoding, a body over the size limit). *)
Inductive parsed : Type :=
| Body (b : create_body)
| BodyError.

(** A request as it arrives: the segments of its path are as sent, not yet
    decoded. *)
Record raw_request : Type := mkRaw {
  raw_method : method;
  raw_path : list string;
  raw_body : parsed
}.

Section Router.

(** [decodeURIComponent], which the router applies to every parameter a
    path binds; [None] when it throws (a malformed escape sequence). *)
Variable decodeURIComponent : string -> option string.

Fixpoint decode_params (raw : list string) : option (list string) :=
  match raw with
  | [] => Some []
  | x :: raw' =>
      match decodeURIComponent x, decode_params raw' with
      | Some y, Some params => Some (y :: params)
      | _, _ => None
      end
  end.

(** The routes of an application, whatever its handlers are. *)
Variable R : Type.
Variable method_of : R -> method.
Variable pattern_of : R -> list segment.

Inductive routing : Type :=
| To (rt : R) (params : list string)     (* the route that handles the request *)
| NoRoute                                (* left to the 404 middleware *)
| DecodeError.                           (* left to the error middleware *)

(** The router goes through the routes in order.  A route whose path
    matches has its parameters decoded, before its method is looked at; a
    failure to decode is kept as a pending error, with which no later route
    matches and which ends in the error middleware. *)
Fixpoint route_request (rs : list R) (m : method) (path : list string) (pending : bool)
  : routing :=
  match rs with
  | [] => if pending then DecodeError else NoRoute
  | rt :: rest =>
      match match_path (pattern_of rt) path with
      | None => route_request rest m path pending
      | Some raw_params =>
          match decode_params raw_params with
          | None => route_request rest m path true
          | Some params =>
              if pending then route_request rest m path true
              else if method_eqb (method_of rt) m then To rt params
              else route_request rest m path false
          end
      end
  end.

End Router.

Arguments To {R} rt params.
Arguments NoRoute {R}.
Arguments DecodeError {R}.

(** The error middleware at the end. *)
Definition error_middleware : response :=
  res_status_json 500 (ErrorBody "Internal server error").

(** The last middleware before it. *)
Definition not_found_middleware : response :=
  res_status_json 404 (ErrorBody "Not found").

(** One request through the application.  [seen] are the observations of
    the request counter so far ([httpRequestsTotal.inc(labels)]), most
    recent first.  An error of [express.json()] skips the metrics
    middleware, which is registered after it. *)
Definition app (decodeURIComponent : string -> option string)
           (r : raw_request) (seen : list labels) : M (response * list labels) :=
  match raw_body r with
  | BodyError => ret (error_middleware, seen)
  | Body b =>
      let count route res := mkLabels (raw_method r) route (statusCode res) :: seen in
      match route_request decodeURIComponent route route_method route_pattern
                          routes (raw_method r) (raw_path r) false with
      | To rt params =>
          await res <- route_handler rt params b;
          ret (res, count (route_path (route_pattern rt)) res)
      | NoRoute => ret (not_found_middleware, count "unmatched" not_found_middleware)
      | DecodeError => ret (error_middleware, count "unmatched" error_middleware)
      end
  end.

(** *** Time

    The handlers await their Redis commands one after the other.  [takes n]
    is how long the [n]-th command of the process takes to settle, in
    milliseconds, [None] when it never settles (a server that accepts the
    connection and does not reply: the client sets no [commandTimeout]). *)

Definition timing : Type := nat -> option N.

(** The time [count] commands take, from the [first] on. *)
Fixpoint settle (takes : timing) (first count : nat) : option N :=
  match count with
  | O => Some 0%N
  | S count' =>
      match takes first, settle takes (S first) count' with
      | Some t, Some t' => Some (t + t')%N
      | _, _ => None
      end
  end.

(** When [m] is through and with what, [None] when one of the commands it
    awaits never settles. *)
Definition timed {A} (takes : timing) (m : M A) (w : world) : option (N * outcome A) :=
  let issued := List.length (trace (snd (m w))) - List.length (trace w) in
  match settle takes (List.length (trace w)) issued with
  | Some t => Some (t, fst (m w))
  | None => None
  end.

End UserService.

(* ------------------------------------------------------------------ *)
(** ** The gateway *)

Module Gateway.

(** An axios response: [{ status, data }].  [data] is the JSON document the
    upstream sent, parsed; for an empty body it is the empty string (see
    [axios_data] below). *)
Record upstream : Type := mkUpstream {
  up_status : Z;
  up_data : body
}.

(** What axios hands on as [response.data] for the body the upstream
    sent. *)
Definition axios_data (sent : body) : body :=
  match sent with
  | NoBody => StringBody ""
  | _ => sent
  end.

(** An axios error; [error.response] is set only when the upstream answered. *)
Record axios_error : Type := mkAxiosError {
  message : string;
  error_response : option upstream
}.

Inductive settled : Type :=
| Fulfilled (r : upstream)
| Rejected (e : axios_error).

(** What the network and the upstream do with one request. *)
Inductive link : Type :=
| Refused (after : N) (reason : string)   (* no HTTP response: refused, reset, DNS failure *)
| Silent                                    (* nothing ever comes back *)
| Answers (after : N) (r : upstream).

Definition network : Type := request -> link.

(** axios' default [validateStatus]. *)
Definition validateStatus (s : Z) : bool := ((200 <=? s) && (s <? 300))%Z.

(** [axios(config)] with [config.timeout = timeout] (0, the default, means no
    timeout): the time at which the promise settles and how; [None] when it
    never settles. *)
Definition axios_request (timeout : N) (l : link) : option (N * settled) :=
  let aborted := (timeout, Rejected (mkAxiosError "timeout exceeded" None)) in
  let late (after : N) := ((0 <? timeout) && (timeout <? after))%N in
  match l with
  | Silent => if (0 <? timeout)%N then Some aborted else None
  | Refused after reason =>
      if late after then Some aborted
      else Some (after, Rejected (mkAxiosError reason None))
  | Answers after r =>
      if late after then Some aborted
      else Some (after,
                 if validateStatus (up_status r) then Fulfilled r
                 else Rejected (mkAxiosError "Request failed" (Some r)))
  end.

Definition no_body : create_body := mkBody JS.Undefined JS.Undefined JS.Undefined.

(** *** The URL of a call

    The routes write the URL with a template,
    [`${USER_SERVICE_URL}/users/${req.params.id}`]: the parameter is pasted
    as text, and axios has the URL parsed before the request goes out.
    [url_path target] is the path then requested, as the list of its
    segments: blanks at the end and tabs and line breaks anywhere are
    dropped, the path ends at the first [?] or [#], it is split at every
    slash (or backslash), and the segments [.] and [..] are resolved. *)

Definition is_blank (c : ascii) : bool := (nat_of_ascii c <=? 32)%nat.

Definition is_break (c : ascii) : bool :=
  let n := nat_of_ascii c in ((n =? 9) || (n =? 10) || (n =? 13))%nat.

Definition is_slash (c : ascii) : bool := Ascii.eqb c "/" || Ascii.eqb c "\".

Definition ends_path (c : ascii) : bool := Ascii.eqb c "?" || Ascii.eqb c "#".

Fixpoint strip_end (s : string) : string :=
  match s with
  | EmptyString => EmptyString
  | String c rest =>
      match strip_end rest with
      | EmptyString => if is_blank c then EmptyString else String c EmptyString
      | rest' => String c rest'
      end
  end.

Fixpoint without_breaks (s : string) : string :=
  match s with
  | EmptyString => EmptyString
  | String c rest =>
      if is_break c then without_breaks rest else String c (without_breaks rest)
  end.

Fixpoint path_part (s : string) : string :=
  match s with
  | EmptyString => EmptyString
  | String c rest => if ends_path c then EmptyString else String c (path_part rest)
  end.

Fixpoint split_path (s : string) : list string :=
  match s with
  | EmptyString => [EmptyString]
  | String c rest =>
      if is_slash c then EmptyString :: split_path rest
      else match split_path rest with
           | seg :: segs => String c seg :: segs
           | [] => [String c EmptyString]
           end
  end.

Definition single_dot (seg : string) : bool :=
  existsb (String.eqb (UserService.lower seg)) ["."; "%2e"].

Definition double_dot (seg : string) : bool :=
  existsb (String.eqb (UserService.lower seg)) [".."; ".%2e"; "%2e."; "%2e%2e"].

(** [done] are the segments kept so far, the last one first. *)
Fixpoint resolve_dots (segs done : list string) : list string :=
  match segs with
  | [] => rev done
  | seg :: rest =>
      if double_dot seg
      then match rest with
           | [] => rev (EmptyString :: tl done)
           | _ => resolve_dots rest (tl done)
           end
      else if single_dot seg
      then match rest with
           | [] => rev (EmptyString :: done)
           | _ => resolve_dots rest done
           end
      else resolve_dots rest (seg :: done)
  end.

(** [target] starts with the slash that follows the host. *)
Definition url_path (target : string) : list string :=
  resolve_dots (tl (split_path (path_part (without_breaks (strip_end target))))) [].

Definition axios_get (net : network) (path : list string) (timeout : N) :=
  axios_request timeout (net (mkRequest GET path no_body)).
(** The body is sent as [JSON.stringify] writes it. *)
Definition axios_post (net : network) (path : list string) (b : create_body) :=
  axios_request 0 (net (mkRequest POST path (json_body b))).
Definition axios_delete (net : network) (path : list string) :=
  axios_request 0 (net (mkRequest DELETE path no_body)).

(** A handler answers when its axios promise settles. *)
Definition respond (on : settled -> response) (p : option (N * settled))
  : option (N * response) :=
  match p with
  | Some (t, s) => Some (t, on s)
  | None => None
  end.

(** [error.response?.status === 404] *)
Definition is_404 (e : axios_error) : bool :=
  match error_response e with
  | Some r => (up_status r =? 404)%Z
  | None => false
  end.

(** The try/catch of each route, as a function of how the call settled. *)

Definition health_ready_on (s : settled) : response :=
  match s with
  | Fulfilled _ => res_json (ReadyBody "ready" "userService" "up")
  | Rejected _ => res_status_json 503 (ReadyBody "not ready" "userService" "down")
  end.

Definition get_api_users_on (s : settled) : response :=
  match s with
  | Fulfilled r => res_json (up_data r)
  | Rejected _ => res_status_json 502 (ErrorBody "Failed to fetch users from user-service")
  end.

Definition get_api_user_on (s : settled) : response :=
  match s with
  | Fulfilled r => res_json (up_data r)
  | Rejected e =>
      if is_404 e then res_status_json 404 (ErrorBody "User not found")
      else res_status_json 502 (ErrorBody "Failed to fetch user from user-service")
  end.

Definition post_api_users_on (s : settled) : response :=
  match s with
  | Fulfilled r => res_status_json 201 (up_data r)
  | Rejected _ => res_status_json 502 (ErrorBody "Failed to create user")
  end.

Definition delete_api_user_on (s : settled) : response :=
  match s with
  | Fulfilled _ => res_status_send 204
  | Rejected e =>
      if is_404 e then res_status_json 404 (ErrorBody "User not found")
      else res_status_json 502 (ErrorBody "Failed to delete user")
  end.

(** GET /health/ready *)
Definition health_ready (net : network) : option (N * response) :=
  respond health_ready_on (axios_get net ["health"] 2000).

(** GET /api/users *)
Definition get_api_users (net : network) : option (N * response) :=
  respond get_api_users_on (axios_get net ["users"] 0).

(** GET /api/users/:id *)
Definition get_api_user (net : network) (param_id : string) : option (N * response) :=
  respond get_api_user_on (axios_get net (url_path ("/users/" ++ param_id)) 0).

(** POST /api/users *)
Definition post_api_users (net : network) (b : create_body) : option (N * response) :=
  respond post_api_users_on (axios_post net ["users"] b).

(** DELETE /api/users/:id *)
Definition delete_api_user (net : network) (param_id : string) : option (N * response) :=
  respond delete_api_user_on (axios_delete net (url_path ("/users/" ++ param_id))).

(** *** Shutdown *)

Definition SHUTDOWN_TIMEOUT_MS : N := 30000.

(** The callback given to [server.close]: [process.exit(1)] on an error,
    [process.exit(0)] otherwise. *)
Definition on_server_closed (c : UserService.closing) : UserService.exit_call :=
  UserService.mkExit (UserService.closed_after c)
                     (if UserService.close_err c then 1 else 0)%Z.

Definition handleGracefulShutdown (server_close : option UserService.closing)
  : UserService.scheduled :=
  UserService.mkScheduled
    (option_map on_server_closed server_close)
    (UserService.mkExit SHUTDOWN_TIMEOUT_MS 1).

(** *** Routing

    The routes of the gateway, in the order of their registration; the
    router, the 404 middleware and the error middleware are those of the
    data service.  A handler that awaits nothing has answered at time 0.
    [now] is what [new Date().toISOString()] yields. *)

Definition at_once (res : response) : option (N * response) := Some (0%N, res).

(** GET /health *)
Definition health (now : string) : response :=
  res_json (HealthBody "healthy" "api-gateway" now).

(** GET /health/live *)
Definition health_live : response := res_json (StatusBody "alive").

Record route : Type := mkRoute {
  route_method : method;
  route_pattern : list UserService.segment;
  route_handler : network -> string -> list string -> create_body -> option (N * response)
}.

Definition routes : list route :=
  let Lit := UserService.Lit in
  let Param := UserService.Param in
  let id := UserService.params_id in
  [ mkRoute GET [Lit "metrics"] (fun _ _ _ _ => at_once (res_json MetricsBody));
    mkRoute GET [Lit "health"] (fun _ now _ _ => at_once (health now));
    mkRoute GET [Lit "health"; Lit "live"] (fun _ _ _ _ => at_once health_live);
    mkRoute GET [Lit "health"; Lit "ready"] (fun net _ _ _ => health_ready net);
    mkRoute GET [Lit "api"; Lit "users"] (fun net _ _ _ => get_api_users net);
    mkRoute GET [Lit "api"; Lit "users"; Param] (fun net _ ps _ => get_api_user net (id ps));
    mkRoute POST [Lit "api"; Lit "users"] (fun net _ _ b => post_api_users net b);
    mkRoute DELETE [Lit "api"; Lit "users"; Param]
            (fun net _ ps _ => delete_api_user net (id ps)) ].

(** One request through the gateway: [express.json()], the routes, the 404
    middleware, the error middleware. *)
Definition app (decodeURIComponent : string -> option string)
           (net : network) (now : string) (r : UserService.raw_request)
  : option (N * response) :=
  match UserService.raw_body r with
  | UserService.BodyError => at_once UserService.error_middleware
  | UserService.Body b =>
      match UserService.route_request decodeURIComponent route route_method route_pattern
                                      routes (UserService.raw_method r)
                                      (UserService.raw_path r) false with
      | UserService.To rt params => route_handler rt net now params b
      | UserService.NoRoute => at_once UserService.not_found_middleware
      | UserService.DecodeError => at_once UserService.error_middleware
      end
  end.

End Gateway.

(* ------------------------------------------------------------------ *)
(** ** The gateway in front of a running data service *)

(** A request of the gateway as the data service receives it: the body is
    the JSON document axios wrote, which [express.json()] parses. *)
Definition received (r : request) : UserService.raw_request :=
  UserService.mkRaw (req_method r) (req_path r) (UserService.Body (req_body r)).

(** The data service in world [w], answering after [latency] ms: the request
    goes through its application, and axios reads the answer. *)
Definition deployed (latency : N) (w : UserService.world) : Gateway.network :=
  fun r =>
    match UserService.app JS.decodeURIComponent (received r) [] w with
    | (UserService.Returned (res, _), _) =>
        Gateway.Answers latency
          (Gateway.mkUpstream (statusCode res) (Gateway.axios_data (payload res)))
    | (UserService.Thrown _, _) =>
        Gateway.Answers latency (Gateway.mkUpstream 500 (ErrorBody "Internal server error"))
    end.

(* ------------------------------------------------------------------ *)
(** ** Sample worlds and requests *)

Definition no_outage : nat -> bool := fun _ => false.
Definition redis_down : nat -> bool := fun _ => true.

Definition uuids (n : nat) : string :=
  match n with
  | 0 => "7c0f4a3e-0001"
  | 1 => "7c0f4a3e-0002"
  | 2 => "7c0f4a3e-0003"
  | _ => "7c0f4a3e-ffff"
  end.

Definition clock (n : nat) : string :=
  match n with
  | 0 => "2024-05-01T10:00:00.000Z"
  | 1 => "2024-05-01T10:00:00.001Z"
  | _ => "2024-05-01T10:00:00.002Z"
  end.

Definition fresh_store : string -> option UserService.blob := fun _ => None.

(** A process that has issued nothing yet, in front of the given Redis. *)
Definition boot (contents : string -> option UserService.blob) (out : nat -> bool)
  : UserService.world :=
  UserService.mkWorld contents out [] uuids 0 clock 0.

Definition ann : user :=
  mkUser "11111111-aaaa" (JS.Str "Ann") (JS.Str "ann@x.io") (JS.Str "user")
         "2024-04-30T08:00:00.000Z".

Definition bea : user :=
  mkUser "22222222-bbbb" (JS.Str "Bea") (JS.Str "bea@x.io") (JS.Str "admin")
         "2024-04-30T09:00:00.000Z".

Definition holding (users : list user) : string -> option UserService.blob :=
  fun k => if k =? UserService.USERS_KEY
           then Some (UserService.JSON_stringify users) else None.

(** The world after running [m] in [w], and what [m] returned. *)
Definition exec {A} (m : UserService.M A) (w : UserService.world) : UserService.world :=
  snd (m w).
Definition result {A} (m : UserService.M A) (w : UserService.world) : UserService.outcome A :=
  fst (m w).

(** The status of the response a handler returned, if it returned one. *)
Definition statusCode_of (o : UserService.outcome response) : option Z :=
  match o with
  | UserService.Returned res => Some (statusCode res)
  | UserService.Thrown _ => None
  end.

(** [m] ends with a value in every world: nothing is thrown out of it. *)
Definition returns {A} (m : UserService.M A) : Prop :=
  forall w, exists a w', m w = (UserService.Returned a, w').

(** The next [k] Redis commands of the process succeed. *)
Definition redis_up (k : nat) (w : UserService.world) : Prop :=
  forall i, i < k ->
    UserService.outage w (List.length (UserService.trace w) + i) = false.

(** A [SET] occurs among the commands. *)
Definition writes (cs : list UserService.command) : bool :=
  existsb (fun c => match c with UserService.SET_ _ _ => true | _ => false end) cs.

(* ------------------------------------------------------------------ *)
(** ** Vocabulary of the statements *)

Section GatewayVocabulary.

Import Gateway.

(** The requests the gateway sends upstream. *)
Definition get_user_request (i : string) : request :=
  mkRequest GET (url_path ("/users/" ++ i)) no_body.
Definition delete_user_request (i : string) : request :=
  mkRequest DELETE (url_path ("/users/" ++ i)) no_body.
Definition post_users_request (b : create_body) : request :=
  mkRequest POST ["users"] (json_body b).
Definition health_probe : request := mkRequest GET ["health"] no_body.

Definition bad_gateway (text : string) : response := mkResponse 502 (ErrorBody text).
Definition gateway_up : response := mkResponse 200 (ReadyBody "ready" "userService" "up").
Definition gateway_down : response := mkResponse 503 (ReadyBody "not ready" "userService" "down").

End GatewayVocabulary.

Section DataServiceVocabulary.

Import UserService.

Definition not_ready : response := mkResponse 503 (ReadyBody "not ready" "redis" "down").
Definition ready : response := mkResponse 200 (ReadyBody "ready" "redis" "up").
Definition bad_request : response := mkResponse 400 (ErrorBody "Name and email are required").
Definition conflict : response := mkResponse 409 (ErrorBody "Email already exists").
Definition not_found : response := mkResponse 404 (ErrorBody "User not found").

(** The record POST /users answers with and stores for a body in world
    [w]. *)
Definition created (w : world) (b : create_body) : user :=
  json_user
    (mkUser (uuid_src w (uuid_used w))
            (body_name b) (body_email b)
            (if JS.truthy (body_role b) then body_role b else JS.Str "user")
            (clock_src w (clock_used w))).

(** The three sample records, with the identifiers and times read in
    world [w]. *)
Definition seed (w : world) : list user :=
  let i := uuid_used w in
  let t := clock_used w in
  [ mkUser (uuid_src w i) (JS.Str "John Doe") (JS.Str "john@example.com") (JS.Str "admin")
           (clock_src w t);
    mkUser (uuid_src w (S i)) (JS.Str "Jane Smith") (JS.Str "jane@example.com") (JS.Str "user")
           (clock_src w (S t));
    mkUser (uuid_src w (S (S i))) (JS.Str "Bob Wilson") (JS.Str "bob@example.com") (JS.Str "user")
           (clock_src w (S (S t))) ].

(** The listener and the store close without an error, [closed_after]
    respectively [quit_after] milliseconds after they were asked to. *)
Definition clean_close (after : N) : closing := mkClosing after false.
Definition failed_close (after : N) : closing := mkClosing after true.
Definition clean_quit (after : N) : quitting := mkQuitting after false.

(** The timer is the only exit left, or the orderly exit does not come
    strictly before it. *)
Definition timer_fires_first (s : scheduled) : Prop :=
  match orderly s with
  | Some e => (exit_at (forced s) <= exit_at e)%N
  | None => True
  end.

End DataServiceVocabulary.

Section CollectionVocabulary.

Import UserService.

(** The collection a world stores, as the handlers read it. *)
Definition stored (w : world) : list user := parse_users (kv w USERS_KEY).

(** No two records of the collection have [===] e-mails. *)
Fixpoint unique_emails (users : list user) : Prop :=
  match users with
  | [] => True
  | u :: rest =>
      (forall x, In x rest -> JS.strict_eq (email u) (email x) = false)
      /\ unique_emails rest
  end.


(** The first segments the data service has routes for. *)
Definition data_service_prefixes : list string := ["metrics"; "health"; "users"].


Definition fallback_404 : response := mkResponse 404 (ErrorBody "Not found").

(** The bodies the data service sends with a 500: those of the four
    handlers and that of the error middleware. *)
Definition failure_bodies : list body :=
  [ ErrorBody "Failed to retrieve users"; ErrorBody "Failed to retrieve user";
    ErrorBody "Failed to create user"; ErrorBody "Failed to delete user";
    ErrorBody "Internal server error" ].

(** The first segments the gateway has routes for. *)
Definition gateway_prefixes : list string := ["metrics"; "health"; "api"].

Definition get_users_request : request := mkRequest GET ["users"] Gateway.no_body.
Definition live_request : request := mkRequest GET ["health"; "live"] Gateway.no_body.
Definition ready_request : request := mkRequest GET ["health"; "ready"] Gateway.no_body.

(** An identifier made of ASCII letters, digits and hyphens, and not empty
    (a UUID is one): pasted into a URL it is one path segment, and the
    segment decodes to it. *)
Definition plain_char (c : ascii) : bool :=
  let n := nat_of_ascii c in
  ((48 <=? n) && (n <=? 57) || (65 <=? n) && (n <=? 90)
   || (97 <=? n) && (n <=? 122) || (n =? 45))%nat.

Fixpoint plain (s : string) : bool :=
  match s with
  | EmptyString => true
  | String c s' => plain_char c && plain s'
  end.

Definition plain_id (i : string) : bool := negb (i =? "") && plain i.

(** The requests a client sends to the gateway, with a body that
    [express.json()] parses. *)
Definition api_get_user_request (i : string) : raw_request :=
  mkRaw GET ["api"; "users"; i] (Body Gateway.no_body).
Definition api_delete_user_request (i : string) : raw_request :=
  mkRaw DELETE ["api"; "users"; i] (Body Gateway.no_body).
Definition api_post_users_request (b : create_body) : raw_request :=
  mkRaw POST ["api"; "users"] (Body b).
Definition api_get_users_request : raw_request :=
  mkRaw GET ["api"; "users"] (Body Gateway.no_body).

End CollectionVocabulary.

(* ------------------------------------------------------------------ *)
(** ** Gateway: forwarding and error mapping *)

Section GatewayForwarding.

Import Gateway.

Lemma is_404_spec (e : axios_error) :
  is_404 e = true <-> exists r, error_response e = Some r /\ up_status r = 404%Z.
Proof.
  unfold is_404. destruct (error_response e) as [r|].
  - rewrite Z.eqb_eq. split.
    + intros H. now exists r.
    + intros (r' & Hr & Hs). now inversion Hr; subst.
  - split; [discriminate | intros (r & Hr & _); discriminate].
Qed.

Lemma validateStatus_spec (s : Z) :
  validateStatus s = true <-> (200 <= s < 300)%Z.
Proof.
  unfold validateStatus. rewrite andb_true_iff, Z.leb_le, Z.ltb_lt. tauto.
Qed.

(** Without a timeout an answer settles the call at the time it arrives. *)
Lemma axios_request_no_timeout_answers (t : N) (r : upstream) :
  axios_request 0 (Answers t r) =
  Some (t, if validateStatus (up_status r) then Fulfilled r
           else Rejected (mkAxiosError "Request failed" (Some r))).
Proof. reflexivity. Qed.

Lemma axios_request_no_timeout_refused (t : N) (reason : string) :
  axios_request 0 (Refused t reason) = Some (t, Rejected (mkAxiosError reason None)).
Proof. reflexivity. Qed.

(** With a timeout every call settles, no later than the timeout. *)
Lemma axios_request_settles_in_time (timeout : N) (l : link) :
  (0 < timeout)%N ->
  exists t s, axios_request timeout l = Some (t, s) /\ (t <= timeout)%N.
Proof.
  intros Hpos. apply N.ltb_lt in Hpos as Hb.
  destruct l as [after reason | | after r]; unfold axios_request; rewrite Hb; cbn.
  - destruct (timeout <? after)%N eqn:Hlate.
    + eexists _, _. split; [reflexivity | lia].
    + apply N.ltb_ge in Hlate. eexists _, _. split; [reflexivity | lia].
  - eexists _, _. split; [reflexivity | lia].
  - destruct (timeout <? after)%N eqn:Hlate.
    + eexists _, _. split; [reflexivity | lia].
    + apply N.ltb_ge in Hlate. eexists _, _. split; [reflexivity | lia].
Qed.

End GatewayForwarding.

Section GatewayRoutes.

Import Gateway.




(** C2, as amended: on GET and DELETE /api/users/:id an upstream answer
    with status 404 is answered with 404; an answer with any other status
    outside 2xx, and a call that fails without an answer whatever the reason
    it reports, are answered with 502 and a body that is a constant of the
    route, so that every 502 of these routes carries that body.  The routes
    set no timeout: an answer is sent on at the time it arrives, however
    late, and as long as the upstream stays silent the gateway sends no
    response at all. *)
Theorem api_user_error_mapping (net : network) (i : string) :
  (forall t r, up_status r = 404%Z ->
     (net (get_user_request i) = Answers t r ->
        get_api_user net i = Some (t, mkResponse 404 (ErrorBody "User not found")))
     /\ (net (delete_user_request i) = Answers t r ->
        delete_api_user net i = Some (t, mkResponse 404 (ErrorBody "User not found"))))
  /\ (forall t r, validateStatus (up_status r) = false -> up_status r <> 404%Z ->
     (net (get_user_request i) = Answers t r ->
        get_api_user net i = Some (t, bad_gateway "Failed to fetch user from user-service"))
     /\ (net (delete_user_request i) = Answers t r ->
        delete_api_user net i = Some (t, bad_gateway "Failed to delete user")))
  /\ (forall t reason,
     (net (get_user_request i) = Refused t reason ->
        get_api_user net i = Some (t, bad_gateway "Failed to fetch user from user-service"))
     /\ (net (delete_user_request i) = Refused t reason ->
        delete_api_user net i = Some (t, bad_gateway "Failed to delete user")))
  /\ (net (get_user_request i) = Silent -> get_api_user net i = None)
  /\ (net (delete_user_request i) = Silent -> delete_api_user net i = None)
  /\ (forall t res, get_api_user net i = Some (t, res) -> statusCode res = 502%Z ->
      res = bad_gateway "Failed to fetch user from user-service")
  /\ (forall t res, delete_api_user net i = Some (t, res) -> statusCode res = 502%Z ->
      res = bad_gateway "Failed to delete user").
Proof.
  unfold get_api_user, delete_api_user, axios_get, axios_delete.
  fold (get_user_request i). fold (delete_user_request i).
  split; [| split; [| split; [| split; [| split; [| split]]]]].
  - intros t r H404.
    assert (Hv : validateStatus (up_status r) = false) by now rewrite H404.
    split; intros Hl; rewrite Hl, axios_request_no_timeout_answers, Hv; cbn;
      unfold is_404; cbn; now rewrite H404.
  - intros t r Hv Hn.
    apply Z.eqb_neq in Hn.
    split; intros Hl; rewrite Hl, axios_request_no_timeout_answers, Hv; cbn;
      unfold is_404; cbn; now rewrite Hn.
  - intros t reason. split; intros Hl; now rewrite Hl.
  - intros Hl. now rewrite Hl.
  - intros Hl. now rewrite Hl.
  - intros t res.
    destruct (net (get_user_request i)) as [after reason | | after r]; cbn;
      [| discriminate |].
    + intros [= _ <-]. reflexivity.
    + destruct (validateStatus (up_status r)); cbn; [intros [= _ <-]; discriminate |].
      destruct (up_status r =? 404)%Z; intros [= _ <-]; [discriminate | reflexivity].
  - intros t res.
    destruct (net (delete_user_request i)) as [after reason | | after r]; cbn;
      [| discriminate |].
    + intros [= _ <-]. reflexivity.
    + destruct (validateStatus (up_status r)); cbn; [intros [= _ <-]; discriminate |].
      destruct (up_status r =? 404)%Z; intros [= _ <-]; [discriminate | reflexivity].
Qed.

Lemma api_user_error_mapping_witness :
  get_api_user (fun _ => Answers 3 (mkUpstream 404 (ErrorBody "User not found"))) "42"
    = Some (3%N, mkResponse 404 (ErrorBody "User not found"))
  /\ delete_api_user (fun _ => Answers 3 (mkUpstream 500 (ErrorBody "Failed to delete user"))) "42"
    = Some (3%N, mkResponse 502 (ErrorBody "Failed to delete user"))
  /\ get_api_user (fun _ => Refused 1 "connect ECONNREFUSED 10.0.0.7:3001") "42"
    = Some (1%N, mkResponse 502 (ErrorBody "Failed to fetch user from user-service"))
  /\ delete_api_user (fun _ => Silent) "42" = None.
Proof.
  split; [| split; [| split]].
  - exact (proj1 (proj1 (api_user_error_mapping
             (fun _ => Answers 3 (mkUpstream 404 (ErrorBody "User not found"))) "42")
             3%N (mkUpstream 404 (ErrorBody "User not found")) eq_refl) eq_refl).
  - refine (proj2 (proj1 (proj2 (api_user_error_mapping
             (fun _ => Answers 3 (mkUpstream 500 (ErrorBody "Failed to delete user"))) "42"))
             3%N (mkUpstream 500 (ErrorBody "Failed to delete user")) eq_refl _) eq_refl).
    cbn. discriminate.
  - exact (proj1 (proj1 (proj2 (proj2 (api_user_error_mapping
             (fun _ => Refused 1 "connect ECONNREFUSED 10.0.0.7:3001") "42")))
             1%N "connect ECONNREFUSED 10.0.0.7:3001") eq_refl).
  - exact (proj1 (proj2 (proj2 (proj2 (proj2 (api_user_error_mapping (fun _ => Silent) "42")))))
             eq_refl).
Defined.

(** C2 as stated fails for a call that gets no answer in time: the two
    routes give axios no timeout, so a silent upstream is not answered with
    502 -- it is not answered -- and an answer that comes after an hour is
    sent on.  Given a timeout, as the readiness route gives one, the same
    catch would answer 502. *)
Lemma api_user_waits_without_timeout :
  get_api_user (fun _ => Silent) "11111111-aaaa" = None
  /\ delete_api_user (fun _ => Silent) "11111111-aaaa" = None
  /\ get_api_user (fun _ => Answers 3600000 (mkUpstream 200 (UserBody ann))) "11111111-aaaa"
     = Some (3600000%N, mkResponse 200 (UserBody ann))
  /\ respond get_api_user_on (axios_request 2000 Silent)
     = Some (2000%N, bad_gateway "Failed to fetch user from user-service").
Proof. repeat split; reflexivity. Qed.

End GatewayRoutes.

Section GatewayReadiness.

Import Gateway.

(** The data service answers /health with 200 whatever the state of Redis. *)
Lemma deployed_health (latency : N) (w : UserService.world) :
  exists r, deployed latency w health_probe = Answers latency r /\ up_status r = 200%Z.
Proof.
  eexists. split; [reflexivity | reflexivity].
Qed.

(** C8: GET /health/ready of the gateway calls /health of the data service
    with a timeout of 2000 ms.  A 2xx answer within the timeout gives 200
    "up"; no answer, a refused connection or a late answer gives 503 "down"
    no later than 2000 ms after the call; in every case the handler has
    answered by then.  Nothing but the /health route decides: a reachable
    data service makes the gateway ready in every world, also one whose
    Redis is down. *)
Theorem gateway_health_ready (net : network) :
  (forall t r, net health_probe = Answers t r -> validateStatus (up_status r) = true ->
     (t <= 2000)%N -> health_ready net = Some (t, gateway_up))
  /\ (net health_probe = Silent
      \/ (exists t reason, net health_probe = Refused t reason)
      \/ (exists t r, net health_probe = Answers t r /\ (2000 < t)%N) ->
      exists t, health_ready net = Some (t, gateway_down) /\ (t <= 2000)%N)
  /\ (forall net' : network, net' health_probe = net health_probe ->
      health_ready net' = health_ready net)
  /\ (forall latency w, (latency <= 2000)%N ->
      health_ready (deployed latency w) = Some (latency, gateway_up))
  /\ (exists t res, health_ready net = Some (t, res) /\ (t <= 2000)%N).
Proof.
  unfold health_ready, axios_get. fold health_probe.
  split; [| split; [| split; [| split]]].
  - intros t r Hl Hv Ht. rewrite Hl. unfold axios_request.
    apply N.ltb_ge in Ht. rewrite Ht, Hv. reflexivity.
  - intros [Hl | [(t & reason & Hl) | (t & r & Hl & Ht)]]; rewrite Hl.
    + exists 2000%N. split; [reflexivity | lia].
    + unfold axios_request. cbn [N.ltb andb].
      destruct (2000 <? t)%N eqn:Hlate; cbn.
      * exists 2000%N. split; [reflexivity | lia].
      * apply N.ltb_ge in Hlate. exists t. split; [reflexivity | exact Hlate].
    + unfold axios_request. apply N.ltb_lt in Ht. rewrite Ht. cbn.
      exists 2000%N. split; [reflexivity | lia].
  - intros net' Heq. now rewrite Heq.
  - intros latency w Hlat.
    destruct (deployed_health latency w) as (r & Hl & Hs).
    rewrite Hl. unfold axios_request.
    apply N.ltb_ge in Hlat. rewrite Hlat. unfold validateStatus. rewrite Hs.
    reflexivity.
  - destruct (axios_request_settles_in_time 2000 (net health_probe)) as (t & s & Hs & Ht);
      [lia |].
    rewrite Hs. cbn. eauto.
Qed.

Lemma gateway_health_ready_witness :
  (* the data service is reachable, its Redis is not *)
  result UserService.health_ready (boot fresh_store redis_down)
    = UserService.Returned (mkResponse 503 (ReadyBody "not ready" "redis" "down"))
  /\ health_ready (deployed 12 (boot fresh_store redis_down)) = Some (12%N, gateway_up)
  (* the data service is unreachable *)
  /\ (exists t, health_ready (fun _ => Silent) = Some (t, gateway_down) /\ (t <= 2000)%N)
  (* the data service answers too late *)
  /\ (exists t, health_ready (fun _ => Answers 2500 (mkUpstream 200 NoBody))
                = Some (t, gateway_down) /\ (t <= 2000)%N).
Proof.
  split; [reflexivity |].
  split; [| split].
  - apply (proj1 (proj2 (proj2 (proj2 (gateway_health_ready (fun _ => Silent)))))). lia.
  - apply (proj1 (proj2 (gateway_health_ready (fun _ => Silent)))).
    left. reflexivity.
  - apply (proj1 (proj2 (gateway_health_ready
                           (fun _ => Answers 2500 (mkUpstream 200 NoBody))))).
    right. right. exists 2500%N, (mkUpstream 200 NoBody). split; [reflexivity | lia].
Defined.

End GatewayReadiness.

(* ------------------------------------------------------------------ *)
(** ** Shutdown of both services *)

Section Shutdown.

Import UserService.

Lemma timer_fires_first_exit (s : scheduled) :
  timer_fires_first s -> process_exit s = forced s.
Proof.
  unfold timer_fires_first, process_exit. destruct (orderly s) as [e|]; [| reflexivity].
  intros H. apply N.ltb_ge in H. now rewrite H.
Qed.

(** C9: after a termination signal the process exits with 0 when the
    listener closed without an error and the store connection was closed,
    all before the 30000 ms timer; with a non-zero status when the listener
    close reported an error; and with a non-zero status when the timer is
    reached first.  This holds for the data service and for the gateway
    (which has no connection to close after the listener). *)
Theorem shutdown_exit_status :
  (* data service *)
  (forall env c q,
     server_close env = Some c -> quit env = Some q ->
     close_err c = false -> quit_rejects q = false ->
     (closed_after c + quit_after q < SHUTDOWN_TIMEOUT_MS)%N ->
     process_exit (handleGracefulShutdown true env)
       = mkExit (closed_after c + quit_after q) 0)
  /\ (forall server env c,
     server_close env = Some c -> close_err c = true ->
     exit_code (process_exit (handleGracefulShutdown server env)) <> 0%Z)
  /\ (forall server env,
     timer_fires_first (handleGracefulShutdown server env) ->
     process_exit (handleGracefulShutdown server env) = mkExit 30000 1)
  (* gateway *)
  /\ (forall c,
     close_err c = false -> (closed_after c < Gateway.SHUTDOWN_TIMEOUT_MS)%N ->
     process_exit (Gateway.handleGracefulShutdown (Some c)) = mkExit (closed_after c) 0)
  /\ (forall c,
     close_err c = true ->
     exit_code (process_exit (Gateway.handleGracefulShutdown (Some c))) <> 0%Z)
  /\ (forall closing,
     timer_fires_first (Gateway.handleGracefulShutdown closing) ->
     process_exit (Gateway.handleGracefulShutdown closing) = mkExit 30000 1).
Proof.
  split; [| split; [| split; [| split; [| split]]]].
  - intros env c q Hc Hq Herr _ Ht.
    unfold process_exit, handleGracefulShutdown, on_server_closed. cbn.
    rewrite Hc, Hq, Herr. cbn [exit_at].
    apply N.ltb_lt in Ht. now rewrite Ht.
  - intros server env c Hc Herr.
    unfold process_exit, handleGracefulShutdown, on_server_closed. cbn [orderly forced].
    destruct server; [| cbn; discriminate].
    rewrite Hc. destruct (quit env) as [q|]; [| cbn; discriminate].
    rewrite Herr. cbn [exit_at].
    destruct (_ <? _)%N; cbn; discriminate.
  - intros server env H. now rewrite (timer_fires_first_exit _ H).
  - intros c Herr Ht.
    unfold process_exit, Gateway.handleGracefulShutdown, Gateway.on_server_closed. cbn.
    apply N.ltb_lt in Ht. now rewrite Ht, Herr.
  - intros c Herr.
    unfold process_exit, Gateway.handleGracefulShutdown, Gateway.on_server_closed.
    cbn [orderly forced option_map exit_at]. rewrite Herr.
    destruct (_ <? _)%N; cbn; discriminate.
  - intros closing H. now rewrite (timer_fires_first_exit _ H).
Qed.

Lemma shutdown_exit_status_witness :
  process_exit (handleGracefulShutdown true
                  (mkShutdownEnv (Some (clean_close 1200)) (Some (clean_quit 40))))
    = mkExit 1240 0
  /\ exit_code (process_exit (handleGracefulShutdown true
                  (mkShutdownEnv (Some (failed_close 0)) (Some (clean_quit 40))))) <> 0%Z
  /\ process_exit (handleGracefulShutdown true
                  (mkShutdownEnv (Some (clean_close 45000)) (Some (clean_quit 40))))
    = mkExit 30000 1
  /\ process_exit (Gateway.handleGracefulShutdown (Some (clean_close 1200)))
    = mkExit 1200 0
  /\ exit_code (process_exit (Gateway.handleGracefulShutdown (Some (failed_close 0)))) <> 0%Z
  /\ process_exit (Gateway.handleGracefulShutdown None) = mkExit 30000 1.
Proof.
  destruct shutdown_exit_status as (U0 & U1 & UT & G0 & G1 & GT).
  split; [| split; [| split; [| split; [| split]]]].
  - apply (U0 (mkShutdownEnv (Some (clean_close 1200)) (Some (clean_quit 40)))
              (clean_close 1200) (clean_quit 40)); try reflexivity.
  - apply (U1 true (mkShutdownEnv (Some (failed_close 0)) (Some (clean_quit 40)))
              (failed_close 0)); reflexivity.
  - apply UT. cbn. discriminate.
  - apply (G0 (clean_close 1200)); reflexivity.
  - apply (G1 (failed_close 0)); reflexivity.
  - apply GT. exact I.
Defined.

End Shutdown.

(* ------------------------------------------------------------------ *)
(** ** Data service: what the handlers do to the store *)

Section RedisCommands.

Import UserService.

Lemma redis_up_0 (k : nat) (w : world) :
  redis_up (S k) w -> outage w (List.length (trace w)) = false.
Proof. intros H. rewrite <- (Nat.add_0_r (List.length (trace w))). apply H. lia. Qed.

Lemma redis_up_1 (k : nat) (w : world) :
  redis_up (S (S k)) w -> outage w (S (List.length (trace w))) = false.
Proof. intros H. rewrite <- Nat.add_1_r. apply H. lia. Qed.

Lemma redis_up_2 (k : nat) (w : world) :
  redis_up (S (S (S k))) w -> outage w (S (S (List.length (trace w)))) = false.
Proof.
  intros H. replace (S (S (List.length (trace w)))) with (List.length (trace w) + 2) by lia.
  apply H. lia.
Qed.

Lemma no_outage_redis_up (k : nat) (contents : string -> option blob) :
  redis_up k (boot contents no_outage).
Proof. intros i _. reflexivity. Qed.

(** [users.find(p)] finds nothing exactly when no element satisfies [p]. *)
Lemma find_none_iff (p : user -> bool) (users : list user) :
  find p users = None <-> forall u, In u users -> p u = false.
Proof.
  split.
  - intros H u Hu. exact (find_none p users H u Hu).
  - induction users as [|x rest IH]; intros H; [reflexivity |].
    cbn. rewrite (H x (or_introl eq_refl)). apply IH.
    intros u Hu. apply H. now right.
Qed.

Lemma findIndex_from_none (p : user -> bool) (users : list user) (i : Z) :
  (forall u, In u users -> p u = false) -> findIndex_from p users i = (-1)%Z.
Proof.
  revert i. induction users as [|x rest IH]; intros i H; [reflexivity |].
  cbn. rewrite (H x (or_introl eq_refl)). apply IH.
  intros u Hu. apply H. now right.
Qed.

(** The index found is the position of the first match. *)
Lemma findIndex_from_first (p : user -> bool) (l1 l2 : list user) (u : user) (i : Z) :
  (forall x, In x l1 -> p x = false) -> p u = true ->
  findIndex_from p (l1 ++ u :: l2) i = (i + Z.of_nat (List.length l1))%Z.
Proof.
  revert i. induction l1 as [|x rest IH]; intros i Hl1 Hu; cbn [List.app findIndex_from].
  - rewrite Hu. cbn. lia.
  - rewrite (Hl1 x (or_introl eq_refl)).
    rewrite IH; [| intros y Hy; apply Hl1; now right | exact Hu].
    cbn [List.length]. lia.
Qed.

Lemma findIndex_first (p : user -> bool) (l1 l2 : list user) (u : user) :
  (forall x, In x l1 -> p x = false) -> p u = true ->
  findIndex p (l1 ++ u :: l2) = Z.of_nat (List.length l1).
Proof.
  intros Hl1 Hu. unfold findIndex. now rewrite findIndex_from_first.
Qed.

(** Splicing at the position of [u] removes exactly [u]. *)
Lemma splice1_at (l1 l2 : list user) (u : user) :
  splice1 (l1 ++ u :: l2) (List.length l1) = l1 ++ l2.
Proof.
  induction l1 as [|x rest IH]; cbn; [reflexivity | now rewrite IH].
Qed.

Lemma has_id_false (i : string) (u : user) : id u <> i -> has_id i u = false.
Proof. intros H. unfold has_id. now apply String.eqb_neq. Qed.

Lemma has_id_true (i : string) (u : user) : id u = i -> has_id i u = true.
Proof. intros H. unfold has_id. now apply String.eqb_eq. Qed.

(** Writing as JSON and reading back a second time changes nothing. *)
Lemma json_idempotent (v : JS.value) : JS.json (JS.json v) = JS.json v.
Proof.
  destruct v as [| | b | n | s |]; try reflexivity.
  unfold JS.json.
  destruct (PrimFloat.is_finite n) eqn:Hfin; [| reflexivity].
  destruct (PrimFloat.is_zero n) eqn:Hzero.
  - reflexivity.
  - now rewrite Hfin, Hzero.
Qed.

Lemma json_user_idempotent (u : user) : json_user (json_user u) = json_user u.
Proof.
  unfold json_user. cbn. now rewrite !json_idempotent.
Qed.

(** What is read from the store is as JSON keeps it. *)
Lemma parse_users_stable (data : option blob) :
  map json_user (parse_users data) = parse_users data.
Proof.
  destruct data as [[users]|]; [| reflexivity]. cbn.
  rewrite map_map. apply map_ext. intros u. apply json_user_idempotent.
Qed.

(** The parts of a list that JSON keeps are kept by JSON. *)
Lemma stable_parts (l1 l2 : list user) (u : user) :
  map json_user (l1 ++ u :: l2) = l1 ++ u :: l2 ->
  map json_user l1 = l1 /\ json_user u = u /\ map json_user l2 = l2.
Proof.
  induction l1 as [|x rest IH]; cbn; intros H.
  - inversion H. repeat split; congruence.
  - inversion H as [[Hx Hrest]]. destruct (IH Hrest) as (H1 & Hu & H2).
    repeat split; congruence.
Qed.

End RedisCommands.

(** *** Every handler catches what it throws *)

Section Boundary.

Import UserService.

Ltac open_handler :=
  unfold returns, health, health_live, health_ready, get_users, get_user, post_users,
    delete_user, try_catch, bind, redis_ping, redis_get, redis_set, uuidv4,
    Date_toISOString, issue, ret.

(** Decide the outcome of the next Redis command. *)
Ltac next_command :=
  match goal with
  | |- context [outage ?w ?n] => destruct (outage w n); cbn
  end.

Lemma health_returns : returns health.
Proof. open_handler. intros w. eauto. Qed.

Lemma health_live_returns : returns health_live.
Proof. open_handler. intros w. eauto. Qed.

Lemma health_ready_returns : returns health_ready.
Proof. open_handler. intros w. next_command; eauto. Qed.

Lemma get_users_returns : returns get_users.
Proof. open_handler. intros w. next_command; eauto. Qed.

Lemma get_user_returns (i : string) : returns (get_user i).
Proof.
  open_handler. intros w. next_command; [eauto |].
  destruct (find (has_id i) (parse_users (kv w USERS_KEY))); cbn; eauto.
Qed.

Lemma post_users_returns (b : create_body) : returns (post_users b).
Proof.
  open_handler. intros w.
  destruct (negb (JS.truthy (body_name b)) || negb (JS.truthy (body_email b))); [eauto |].
  cbn. next_command; [eauto |].
  destruct (find (has_email (body_email b)) (parse_users (kv w USERS_KEY))); cbn; [eauto |].
  next_command; eauto.
Qed.

Lemma delete_user_returns (i : string) : returns (delete_user i).
Proof.
  open_handler. intros w. next_command; [eauto |].
  destruct (findIndex (has_id i) (parse_users (kv w USERS_KEY)) =? -1)%Z; cbn; [eauto |].
  next_command; eauto.
Qed.

Lemma dispatch_returns (rs : list route) (r : request) :
  Forall (fun rt => forall params b, returns (route_handler rt params b)) rs ->
  returns (dispatch rs r).
Proof.
  induction 1 as [| rt rest Hrt _ IH]; cbn [dispatch].
  - intros w. unfold ret. eauto.
  - destruct (method_eqb (route_method rt) (req_method r)); [| exact IH].
    destruct (match_path (route_pattern rt) (req_path r)) as [params|]; [| exact IH].
    apply Hrt.
Qed.

(** No request makes the application throw. *)
Lemma serve_returns (r : request) : returns (serve r).
Proof.
  apply dispatch_returns. unfold routes.
  repeat constructor; cbn [route_handler]; intros params b.
  - intros w. unfold ret. eauto.
  - apply health_returns.
  - apply health_live_returns.
  - apply health_ready_returns.
  - apply get_users_returns.
  - apply get_user_returns.
  - apply post_users_returns.
  - apply delete_user_returns.
Qed.

(** A rejected Redis command is answered with 500 and a body that is a
    constant of the route; the store keeps what it had. *)
Lemma store_failure_is_500 (w : world) (i : string) (b : create_body) :
  outage w (List.length (trace w)) = true ->
  result get_users w = Returned (mkResponse 500 (ErrorBody "Failed to retrieve users"))
  /\ result (get_user i) w = Returned (mkResponse 500 (ErrorBody "Failed to retrieve user"))
  /\ result (delete_user i) w = Returned (mkResponse 500 (ErrorBody "Failed to delete user"))
  /\ kv (exec (delete_user i) w) = kv w
  /\ (JS.truthy (body_name b) = true -> JS.truthy (body_email b) = true ->
      result (post_users b) w = Returned (mkResponse 500 (ErrorBody "Failed to create user"))
      /\ kv (exec (post_users b) w) = kv w).
Proof.
  intros Hout. unfold result, exec. open_handler.
  rewrite Hout. cbn.
  do 4 (split; [reflexivity |]).
  intros Hn He. rewrite Hn, He. cbn. rewrite Hout. now split.
Qed.

(** A SET that rejects after a successful GET: 500, and nothing stored. *)
Lemma failed_write_is_500 (w : world) (i : string) (u : user) (rest : list user) :
  outage w (List.length (trace w)) = false ->
  outage w (S (List.length (trace w))) = true ->
  parse_users (kv w USERS_KEY) = u :: rest -> id u = i ->
  result (delete_user i) w = Returned (mkResponse 500 (ErrorBody "Failed to delete user"))
  /\ kv (exec (delete_user i) w) = kv w.
Proof.
  intros H0 H1 Husers Hid. unfold result, exec. open_handler.
  rewrite H0. cbn. rewrite Husers. unfold findIndex. cbn.
  rewrite (has_id_true i u Hid). cbn. rewrite H1. cbn. now split.
Qed.

End Boundary.

Section DataServiceHandlers.

Import UserService.

(** One command issued, settling after [t] ms. *)
Lemma settle_one (takes : timing) (n : nat) :
  settle takes n 1 = takes n.
Proof.
  cbn. destruct (takes n) as [t|]; [| reflexivity]. now rewrite N.add_0_r.
Qed.

(** C7, as amended: GET /health/ready of the data service sends one PING
    and answers when the PING settles, after whatever time that takes: 200
    ready/up when it is answered, 503 not ready/down when it is rejected.
    Nothing bounds the wait -- the client is given no command timeout -- and
    while the PING stays pending the handler does not answer.  No exception
    escapes the handler. *)
Theorem health_ready_probe (takes : timing) (w : world) :
  (forall t, takes (List.length (trace w)) = Some t ->
     (outage w (List.length (trace w)) = false ->
        timed takes health_ready w = Some (t, Returned ready))
     /\ (outage w (List.length (trace w)) = true ->
        timed takes health_ready w = Some (t, Returned not_ready)))
  /\ (takes (List.length (trace w)) = None -> timed takes health_ready w = None)
  /\ trace (exec health_ready w) = PING :: trace w
  /\ (forall t o, timed takes health_ready w = Some (t, o) -> exists r, o = Returned r).
Proof.
  assert (Htrace : trace (exec health_ready w) = PING :: trace w).
  { unfold exec, health_ready, try_catch, bind, redis_ping, issue, ret.
    now destruct (outage w (List.length (trace w))). }
  assert (Htimed : timed takes health_ready w
                   = match takes (List.length (trace w)) with
                     | Some t => Some (t, result health_ready w)
                     | None => None
                     end).
  { unfold timed. fold (exec health_ready w). rewrite Htrace. cbn [List.length].
    replace (S (List.length (trace w)) - List.length (trace w)) with 1 by lia.
    now rewrite settle_one. }
  assert (Hres : result health_ready w
                 = Returned (if outage w (List.length (trace w)) then not_ready else ready)).
  { unfold result, health_ready, try_catch, bind, redis_ping, issue, ret.
    now destruct (outage w (List.length (trace w))). }
  rewrite Htimed, Hres. split; [| split; [| split]].
  - intros t Ht. rewrite Ht. split; intros Hout; now rewrite Hout.
  - intros Ht. now rewrite Ht.
  - exact Htrace.
  - intros t o. destruct (takes (List.length (trace w))); [| discriminate].
    intros [= _ <-]. eauto.
Qed.

Lemma health_ready_probe_witness :
  timed (fun _ => Some 4%N) health_ready (boot fresh_store no_outage)
    = Some (4%N, Returned ready)
  /\ timed (fun _ => Some 9000%N) health_ready (boot fresh_store redis_down)
    = Some (9000%N, Returned not_ready)
  /\ timed (fun _ => None) health_ready (boot fresh_store no_outage) = None.
Proof.
  split; [| split].
  - apply (proj1 (health_ready_probe (fun _ => Some 4%N) (boot fresh_store no_outage)) 4%N);
      reflexivity.
  - apply (proj1 (health_ready_probe (fun _ => Some 9000%N) (boot fresh_store redis_down))
                 9000%N); reflexivity.
  - apply (proj1 (proj2 (health_ready_probe (fun _ => None) (boot fresh_store no_outage)))).
    reflexivity.
Defined.

(** C7 as stated fails on the time bound: a Redis that accepts the
    connection and never replies leaves the PING pending, and the handler
    with it -- no 503 is sent; a reply that takes a day is still answered
    with 200. *)
Lemma health_ready_waits_without_bound :
  timed (fun _ => None) health_ready (boot fresh_store no_outage) = None
  /\ timed (fun _ => None) health_ready (boot fresh_store redis_down) = None
  /\ timed (fun _ => Some 86400000%N) health_ready (boot fresh_store no_outage)
     = Some (86400000%N, Returned ready).
Proof. repeat split; reflexivity. Qed.

(** C4: when the GET of the collection succeeds, GET /users answers 200
    with [{ data, total }], [total] being the length of [data]; with the key
    absent the body is [{ data: [], total: 0 }]. *)
Theorem get_users_total (w : world) :
  redis_up 1 w ->
  result get_users w
    = Returned (mkResponse 200 (UsersBody (parse_users (kv w USERS_KEY))
                                          (List.length (parse_users (kv w USERS_KEY)))))
  /\ (kv w USERS_KEY = None ->
      result get_users w = Returned (mkResponse 200 (UsersBody [] 0))).
Proof.
  intros Hup. apply redis_up_0 in Hup.
  unfold result, get_users, try_catch, bind, redis_get, issue, ret.
  rewrite Hup. cbn. split; [reflexivity |].
  intros Habsent. now rewrite Habsent.
Qed.

Lemma get_users_total_witness :
  result get_users (boot fresh_store no_outage)
    = Returned (mkResponse 200 (UsersBody [] 0))
  /\ result get_users (boot (holding [ann; bea]) no_outage)
    = Returned (mkResponse 200 (UsersBody [ann; bea] 2)).
Proof.
  split.
  - apply (proj2 (get_users_total (boot fresh_store no_outage)
                                  (no_outage_redis_up 1 fresh_store))).
    reflexivity.
  - exact (proj1 (get_users_total (boot (holding [ann; bea]) no_outage)
                                  (no_outage_redis_up 1 (holding [ann; bea])))).
Defined.

(** A body whose name or e-mail is falsy is answered before anything else
    happens: the world is left as it was. *)
Lemma post_users_rejects_falsy (b : create_body) (w : world) :
  JS.truthy (body_name b) = false \/ JS.truthy (body_email b) = false ->
  post_users b w = (Returned bad_request, w).
Proof.
  intros H. unfold post_users, try_catch.
  assert (Hg : negb (JS.truthy (body_name b)) || negb (JS.truthy (body_email b)) = true).
  { destruct H as [H | H]; rewrite H; cbn; [reflexivity | apply orb_true_r]. }
  now rewrite Hg.
Qed.

(** C10: a POST /users body without name or without email is answered with
    400 and the world is untouched -- no Redis command is issued, whatever
    the state of the store, an unreachable one included. *)
Theorem post_users_validates_first (b : create_body) (w : world) :
  body_name b = JS.Undefined \/ body_email b = JS.Undefined ->
  result (post_users b) w = Returned bad_request
  /\ exec (post_users b) w = w
  /\ trace (exec (post_users b) w) = trace w.
Proof.
  intros H. unfold result, exec.
  rewrite post_users_rejects_falsy; [now repeat split |].
  destruct H as [H | H]; rewrite H; [now left | now right].
Qed.

Lemma post_users_validates_first_witness :
  let b := mkBody (JS.Str "Ann") JS.Undefined JS.Undefined in
  let w := boot fresh_store redis_down in
  result (post_users b) w = Returned bad_request
  /\ exec (post_users b) w = w
  /\ trace (exec (post_users b) w) = trace w.
Proof.
  apply (post_users_validates_first (mkBody (JS.Str "Ann") JS.Undefined JS.Undefined)
                                    (boot fresh_store redis_down)).
  right. reflexivity.
Defined.

End DataServiceHandlers.

Section DataServiceWrites.

Import UserService.

(** C3, as amended: POST /users answers 400 when name or email is missing
    or falsy (an empty string, null, false, 0); otherwise, the GET of the
    collection succeeding, 409 when a stored record has that e-mail, and
    nothing is written; otherwise, the SET succeeding as well, 201 with a
    record that has the name and e-mail of the body as JSON writes them (a
    string, a boolean or a finite number is unchanged, a number outside the
    range of a double is null), the role of the body when that is truthy
    and "user" when it is absent or falsy, the identifier the call of
    [uuidv4()] returned and the time read for it; the collection read
    from the store afterwards is the one read before with that record
    appended. *)
Theorem post_users_contract (b : create_body) (w : world) :
  (JS.truthy (body_name b) = false \/ JS.truthy (body_email b) = false ->
     result (post_users b) w = Returned bad_request)
  /\ (JS.truthy (body_name b) = true -> JS.truthy (body_email b) = true ->
      redis_up 1 w ->
      (exists u, In u (parse_users (kv w USERS_KEY))
                 /\ JS.strict_eq (email u) (body_email b) = true) ->
      result (post_users b) w = Returned conflict
      /\ kv (exec (post_users b) w) = kv w
      /\ trace (exec (post_users b) w) = GET_ USERS_KEY :: trace w)
  /\ (JS.truthy (body_name b) = true -> JS.truthy (body_email b) = true ->
      redis_up 2 w ->
      (forall u, In u (parse_users (kv w USERS_KEY)) ->
                 JS.strict_eq (email u) (body_email b) = false) ->
      exists u,
        result (post_users b) w = Returned (mkResponse 201 (UserBody u))
        /\ parse_users (kv (exec (post_users b) w) USERS_KEY)
           = parse_users (kv w USERS_KEY) ++ [u]
        /\ id u = uuid_src w (uuid_used w)
        /\ uuid_used (exec (post_users b) w) = S (uuid_used w)
        /\ createdAt u = clock_src w (clock_used w)
        /\ name u = JS.json (body_name b)
        /\ email u = JS.json (body_email b)
        /\ (forall s, body_name b = JS.Str s -> name u = JS.Str s)
        /\ (forall s, body_email b = JS.Str s -> email u = JS.Str s)
        /\ (JS.truthy (body_role b) = true -> role u = JS.json (body_role b))
        /\ (JS.truthy (body_role b) = false -> role u = JS.Str "user")).
Proof.
  split; [| split].
  - intros H. unfold result. now rewrite post_users_rejects_falsy.
  - intros Hn He Hup (u & Hin & Heq).
    apply redis_up_0 in Hup.
    unfold result, exec, post_users, try_catch, bind, redis_get, issue, ret.
    rewrite Hn, He. cbn. rewrite Hup. cbn.
    destruct (find (has_email (body_email b)) (parse_users (kv w USERS_KEY))) eqn:Hfind.
    + cbn. now repeat split.
    + exfalso. rewrite find_none_iff in Hfind.
      specialize (Hfind u Hin). unfold has_email in Hfind. congruence.
  - intros Hn He Hup Hnone.
    pose proof (redis_up_0 _ _ Hup) as H0. pose proof (redis_up_1 _ _ Hup) as H1.
    assert (Hfind : find (has_email (body_email b)) (parse_users (kv w USERS_KEY)) = None).
    { apply find_none_iff. intros u Hu. unfold has_email. now apply Hnone. }
    exists (created w b).
    unfold result, exec, post_users, try_catch, bind, redis_get, redis_set,
      uuidv4, Date_toISOString, issue, ret.
    rewrite Hn, He. cbn. rewrite H0. cbn. rewrite Hfind. cbn. rewrite H1. cbn.
    unfold created, JS.or_else.
    split; [reflexivity |]. split.
    { rewrite map_app, parse_users_stable. reflexivity. }
    cbn. repeat split.
    + intros s Hs. now rewrite Hs.
    + intros s Hs. now rewrite Hs.
    + intros Hr. now rewrite Hr.
    + intros Hr. now rewrite Hr.
Qed.

Lemma post_users_contract_witness :
  let w := boot (holding [ann]) no_outage in
  result (post_users (mkBody (JS.Str "") (JS.Str "zoe@x.io") JS.Undefined)) w
    = Returned bad_request
  /\ result (post_users (mkBody (JS.Str "Ann B.") (JS.Str "ann@x.io") JS.Undefined)) w
    = Returned conflict
  /\ parse_users
       (kv (exec (post_users (mkBody (JS.Str "Bea") (JS.Str "bea@x.io") (JS.Str "admin"))) w)
           USERS_KEY)
    = [ann; mkUser "7c0f4a3e-0001" (JS.Str "Bea") (JS.Str "bea@x.io") (JS.Str "admin")
                   "2024-05-01T10:00:00.000Z"].
Proof.
  intros w. split; [| split].
  - apply (proj1 (post_users_contract
                    (mkBody (JS.Str "") (JS.Str "zoe@x.io") JS.Undefined) w)).
    left. reflexivity.
  - refine (proj1 (proj1 (proj2 (post_users_contract
                    (mkBody (JS.Str "Ann B.") (JS.Str "ann@x.io") JS.Undefined) w))
                    eq_refl eq_refl (no_outage_redis_up 1 _) _)).
    exists ann. split; [now left | reflexivity].
  - destruct (proj2 (proj2 (post_users_contract
                    (mkBody (JS.Str "Bea") (JS.Str "bea@x.io") (JS.Str "admin")) w))
                    eq_refl eq_refl (no_outage_redis_up 2 _))
      as (u & _ & Hkv & Hid & _ & Ht & Hname & Hmail & _ & _ & Hrole & _).
    + intros u [Hu | []]. now subst u.
    + rewrite Hkv. destruct u as [ui un ue ur ut]. cbn in *.
      rewrite Hid, Ht, Hname, Hmail, (Hrole eq_refl). reflexivity.
Defined.

(** C3 as stated fails: a body that carries both name and email, the name
    being the empty string, is answered with 400 although no stored record
    has its e-mail; a role given as the empty string is replaced by "user";
    and a name given as a number outside the range of a double ([1e400],
    which the body parser reads as [Infinity]) is answered and stored as
    null. *)
Lemma post_users_empty_name_is_400 :
  let w := boot fresh_store no_outage in
  let b := mkBody (JS.Str "") (JS.Str "ann@x.io") JS.Undefined in
  let b' := mkBody (JS.Str "Ann") (JS.Str "ann@x.io") (JS.Str "") in
  let b'' := mkBody (JS.Num PrimFloat.infinity) (JS.Str "ann@x.io") JS.Undefined in
  body_name b <> JS.Undefined /\ body_email b <> JS.Undefined
  /\ parse_users (kv w USERS_KEY) = []
  /\ result (post_users b) w = Returned (mkResponse 400 (ErrorBody "Name and email are required"))
  /\ result (post_users b') w
     = Returned (mkResponse 201 (UserBody (mkUser "7c0f4a3e-0001" (JS.Str "Ann")
                                  (JS.Str "ann@x.io") (JS.Str "user")
                                  "2024-05-01T10:00:00.000Z")))
  /\ body_role b' <> JS.Str "user" /\ body_role b' <> JS.Undefined
  /\ result (post_users b'') w
     = Returned (mkResponse 201 (UserBody (mkUser "7c0f4a3e-0001" JS.Null
                                  (JS.Str "ann@x.io") (JS.Str "user")
                                  "2024-05-01T10:00:00.000Z")))
  /\ parse_users (kv (exec (post_users b'') w) USERS_KEY)
     = [mkUser "7c0f4a3e-0001" JS.Null (JS.Str "ann@x.io") (JS.Str "user")
               "2024-05-01T10:00:00.000Z"].
Proof. cbn. repeat split; discriminate. Qed.

(** C6: DELETE /users/:id, the GET of the collection succeeding: when no
    stored record has the identifier the answer is 404, the store is as it
    was and no SET was issued; when one has it, and the SET succeeds, the
    first such record is removed, the remaining collection is stored as a
    whole and the answer is 204 without a body. *)
Theorem delete_user_contract (i : string) (w : world) :
  (redis_up 1 w ->
     (forall u, In u (parse_users (kv w USERS_KEY)) -> id u <> i) ->
     result (delete_user i) w = Returned not_found
     /\ kv (exec (delete_user i) w) = kv w
     /\ trace (exec (delete_user i) w) = GET_ USERS_KEY :: trace w)
  /\ (redis_up 2 w ->
      forall l1 u l2,
        parse_users (kv w USERS_KEY) = l1 ++ u :: l2 ->
        id u = i -> (forall x, In x l1 -> id x <> i) ->
        result (delete_user i) w = Returned (mkResponse 204 NoBody)
        /\ kv (exec (delete_user i) w) USERS_KEY = Some (JSON_stringify (l1 ++ l2))
        /\ trace (exec (delete_user i) w)
           = SET_ USERS_KEY (JSON_stringify (l1 ++ l2)) :: GET_ USERS_KEY :: trace w).
Proof.
  split.
  - intros Hup Hnone. apply redis_up_0 in Hup.
    unfold result, exec, delete_user, try_catch, bind, redis_get, issue, ret.
    rewrite Hup. cbn.
    unfold findIndex. rewrite findIndex_from_none.
    + cbn. now repeat split.
    + intros u Hu. apply has_id_false. now apply Hnone.
  - intros Hup l1 u l2 Husers Hu Hl1.
    pose proof (redis_up_0 _ _ Hup) as H0. pose proof (redis_up_1 _ _ Hup) as H1.
    assert (Hidx : findIndex (has_id i) (parse_users (kv w USERS_KEY))
                   = Z.of_nat (List.length l1)).
    { rewrite Husers. apply findIndex_first.
      - intros x Hx. apply has_id_false. now apply Hl1.
      - now apply has_id_true. }
    unfold result, exec, delete_user, try_catch, bind, redis_get, redis_set, issue, ret.
    rewrite H0. cbn. rewrite Hidx.
    assert (Hne : (Z.of_nat (List.length l1) =? -1)%Z = false) by (apply Z.eqb_neq; lia).
    rewrite Hne, Nat2Z.id. cbn. rewrite H1. cbn.
    rewrite Husers, splice1_at. cbn.
    now repeat split.
Qed.

Lemma delete_user_contract_witness :
  let w := boot (holding [ann; bea]) no_outage in
  result (delete_user "33333333-cccc") w = Returned not_found
  /\ kv (exec (delete_user "33333333-cccc") w) = kv w
  /\ result (delete_user "22222222-bbbb") w = Returned (mkResponse 204 NoBody)
  /\ kv (exec (delete_user "22222222-bbbb") w) USERS_KEY = Some (JSON_stringify [ann]).
Proof.
  intros w.
  assert (Hmiss : forall u, In u (parse_users (kv w USERS_KEY)) -> id u <> "33333333-cccc").
  { intros u [Hu | [Hu | []]]; subst u; discriminate. }
  assert (Hfirst : forall x, In x [ann] -> id x <> "22222222-bbbb").
  { intros x [Hx | []]; subst x; discriminate. }
  pose proof (proj1 (delete_user_contract "33333333-cccc" w)
                (no_outage_redis_up 1 _) Hmiss) as (R1 & K1 & _).
  pose proof (proj2 (delete_user_contract "22222222-bbbb" w)
                (no_outage_redis_up 2 _) [ann] bea [] eq_refl eq_refl Hfirst) as (R2 & K2 & _).
  repeat split; assumption.
Defined.

End DataServiceWrites.

Section Seeding.

Import UserService.

(** With the key absent and Redis answering, the sample records are
    stored. *)
Lemma initializeData_seeds (w : world) :
  kv w USERS_KEY = None -> redis_up 3 w ->
  kv (exec initializeData w) USERS_KEY = Some (JSON_stringify (seed w)).
Proof.
  intros Habsent Hup.
  pose proof (redis_up_0 _ _ Hup) as H0.
  pose proof (redis_up_1 _ _ Hup) as H1.
  pose proof (redis_up_2 _ _ Hup) as H2.
  unfold exec, initializeData, try_catch, bind, redis_connect, redis_exists, redis_set,
    sampleUsers, uuidv4, Date_toISOString, issue, ret.
  rewrite H0. cbn. rewrite H1. cbn. rewrite Habsent. cbn. rewrite H2. cbn.
  reflexivity.
Qed.

(** With the key present nothing is stored, whether Redis answers or not. *)
Lemma initializeData_present (w : world) :
  kv w USERS_KEY <> None ->
  kv (exec initializeData w) = kv w
  /\ exists cs, trace (exec initializeData w) = cs ++ trace w /\ writes cs = false.
Proof.
  intros Hpresent.
  unfold exec, initializeData, try_catch, bind, redis_connect, redis_exists, issue, ret.
  destruct (outage w (List.length (trace w))); cbn.
  - split; [reflexivity |]. now exists [CONNECT].
  - destruct (outage w (S (List.length (trace w)))); cbn.
    + split; [reflexivity |]. now exists [EXISTS USERS_KEY; CONNECT].
    + destruct (kv w USERS_KEY) as [stored|]; [| congruence]. cbn.
      split; [reflexivity |]. now exists [EXISTS USERS_KEY; CONNECT].
Qed.

(** C5: seeding stores the three sample records when the key is absent (and
    Redis answers), writes nothing when the key is present, and a second run
    right after the first leaves the store as the first left it: the
    collection holds the sample records once. *)
Theorem initializeData_idempotent (w : world) :
  (kv w USERS_KEY = None -> redis_up 3 w ->
     kv (exec initializeData w) USERS_KEY = Some (JSON_stringify (seed w)))
  /\ (kv w USERS_KEY <> None ->
      kv (exec initializeData w) = kv w
      /\ exists cs, trace (exec initializeData w) = cs ++ trace w /\ writes cs = false)
  /\ (kv w USERS_KEY <> None \/ redis_up 3 w ->
      kv (exec initializeData (exec initializeData w)) = kv (exec initializeData w))
  /\ (kv w USERS_KEY = None -> redis_up 3 w ->
      kv (exec initializeData (exec initializeData w)) USERS_KEY
      = Some (JSON_stringify (seed w))).
Proof.
  assert (Htwice : kv w USERS_KEY <> None \/ redis_up 3 w ->
            kv (exec initializeData (exec initializeData w)) = kv (exec initializeData w)).
  { intros H. apply initializeData_present.
    destruct (kv w USERS_KEY) as [stored|] eqn:Hkey.
    - destruct (initializeData_present w) as (Hkv & _); [congruence |].
      rewrite Hkv, Hkey. discriminate.
    - destruct H as [H | Hup]; [congruence |].
      rewrite (initializeData_seeds w Hkey Hup). discriminate. }
  split; [exact (initializeData_seeds w) |].
  split; [exact (initializeData_present w) |].
  split; [exact Htwice |].
  intros Hkey Hup. rewrite Htwice by now right.
  now apply initializeData_seeds.
Qed.

Lemma initializeData_idempotent_witness :
  let w := boot fresh_store no_outage in
  kv (exec initializeData w) USERS_KEY = Some (JSON_stringify (seed w))
  /\ kv (exec initializeData (exec initializeData w)) = kv (exec initializeData w)
  /\ kv (exec initializeData (boot (holding [ann]) no_outage)) = holding [ann].
Proof.
  intros w.
  destruct (initializeData_idempotent w) as (Hseed & _ & Htwice & _).
  destruct (initializeData_idempotent (boot (holding [ann]) no_outage)) as (_ & Hnoop & _).
  split; [| split].
  - apply Hseed; [reflexivity | apply no_outage_redis_up].
  - apply Htwice. right. apply no_outage_redis_up.
  - apply Hnoop. cbn. discriminate.
Defined.

End Seeding.

(* ------------------------------------------------------------------ *)
(** ** Identifiers in paths: escapes and pasted URLs *)

Section UrlsAndEscapes.

Import Gateway.

(** What a plain character is not. *)
Lemma plain_char_spec (c : ascii) :
  plain_char c = true ->
  Ascii.eqb c "%" = false /\ is_blank c = false /\ is_break c = false
  /\ is_slash c = false /\ ends_path c = false
  /\ Ascii.eqb (UserService.lower_ascii c) "." = false
  /\ Ascii.eqb (UserService.lower_ascii c) "%" = false.
Proof.
  destruct c as [[] [] [] [] [] [] [] []]; vm_compute; intros H;
    (discriminate H || (repeat split; reflexivity)).
Qed.

Lemma plain_cons (c : ascii) (s : string) :
  plain (String c s) = true -> plain_char c = true /\ plain s = true.
Proof. cbn. apply andb_true_iff. Qed.

Lemma unescape_plain (s : string) :
  plain s = true ->
  exists bytes, JS.unescape s = Some bytes /\ JS.well_formed bytes = true
                /\ JS.string_of_bytes bytes = s.
Proof.
  induction s as [| c s IH]; intros Hp.
  - exists []. now repeat split.
  - apply plain_cons in Hp as (Hc & Hs).
    destruct (IH Hs) as (bytes & Hu & Hw & Hb).
    destruct (plain_char_spec c Hc) as (Hpc & _).
    exists ((false, N_of_ascii c) :: bytes).
    cbn [JS.unescape]. rewrite Hpc, Hu. repeat split.
    + exact Hw.
    + cbn [JS.string_of_bytes]. now rewrite ascii_N_embedding, Hb.
Qed.

(** A plain string holds no escape: it decodes to itself. *)
Lemma decodeURIComponent_plain (s : string) :
  plain s = true -> JS.decodeURIComponent s = Some s.
Proof.
  intros Hp. destruct (unescape_plain s Hp) as (bytes & Hu & Hw & Hb).
  unfold JS.decodeURIComponent. now rewrite Hu, Hw, Hb.
Qed.

Lemma plain_id_spec (i : string) :
  plain_id i = true -> i <> "" /\ plain i = true.
Proof.
  unfold plain_id. rewrite andb_true_iff, negb_true_iff, String.eqb_neq. tauto.
Qed.

Lemma strip_end_plain (s : string) : plain s = true -> strip_end s = s.
Proof.
  induction s as [| c s IH]; intros Hp; [reflexivity |].
  apply plain_cons in Hp as (Hc & Hs).
  destruct (plain_char_spec c Hc) as (_ & Hb & _).
  cbn [strip_end]. rewrite (IH Hs), Hb. now destruct s.
Qed.

Lemma strip_end_app (s1 s2 : string) :
  strip_end s2 = s2 -> s2 <> "" -> strip_end (s1 ++ s2) = (s1 ++ s2)%string.
Proof.
  intros H2 Hne. induction s1 as [| c s1 IH]; [exact H2 |].
  cbn [append strip_end]. rewrite IH.
  destruct (s1 ++ s2)%string eqn:Happ; [| reflexivity].
  destruct s1; [cbn in Happ; contradiction | discriminate].
Qed.

Lemma without_breaks_plain (s : string) : plain s = true -> without_breaks s = s.
Proof.
  induction s as [| c s IH]; intros Hp; [reflexivity |].
  apply plain_cons in Hp as (Hc & Hs).
  destruct (plain_char_spec c Hc) as (_ & _ & Hb & _).
  cbn [without_breaks]. now rewrite Hb, (IH Hs).
Qed.

Lemma path_part_plain (s : string) : plain s = true -> path_part s = s.
Proof.
  induction s as [| c s IH]; intros Hp; [reflexivity |].
  apply plain_cons in Hp as (Hc & Hs).
  destruct (plain_char_spec c Hc) as (_ & _ & _ & _ & Hb & _).
  cbn [path_part]. now rewrite Hb, (IH Hs).
Qed.

Lemma split_path_plain (s : string) : plain s = true -> split_path s = [s].
Proof.
  induction s as [| c s IH]; intros Hp; [reflexivity |].
  apply plain_cons in Hp as (Hc & Hs).
  destruct (plain_char_spec c Hc) as (_ & _ & _ & Hb & _).
  cbn [split_path]. now rewrite Hb, (IH Hs).
Qed.

Lemma no_dots_plain (i : string) :
  plain_id i = true -> single_dot i = false /\ double_dot i = false.
Proof.
  intros Hp. apply plain_id_spec in Hp as (Hne & Hp).
  destruct i as [| c s]; [contradiction |].
  apply plain_cons in Hp as (Hc & _).
  destruct (plain_char_spec c Hc) as (_ & _ & _ & _ & _ & Hdot & Hpc).
  unfold single_dot, double_dot. cbn [existsb UserService.lower String.eqb].
  now rewrite Hdot, Hpc.
Qed.

Lemma without_breaks_app (s1 s2 : string) :
  without_breaks (s1 ++ s2) = (without_breaks s1 ++ without_breaks s2)%string.
Proof.
  induction s1 as [| c s1 IH]; [reflexivity |].
  cbn [append without_breaks]. destruct (is_break c); cbn [append]; now rewrite IH.
Qed.

Lemma path_part_cut (i q : string) (c : ascii) :
  plain i = true -> ends_path c = true -> path_part (i ++ String c q) = i.
Proof.
  intros Hp Hc. induction i as [| a i IH]; cbn [append path_part].
  - now rewrite Hc.
  - apply plain_cons in Hp as (Ha & Hi).
    destruct (plain_char_spec a Ha) as (_ & _ & _ & _ & Hb & _).
    now rewrite Hb, (IH Hi).
Qed.

Lemma strip_end_cut (q : string) (c : ascii) :
  plain q = true -> is_blank c = false -> strip_end (String c q) = String c q.
Proof.
  intros Hq Hc. cbn [strip_end]. rewrite (strip_end_plain q Hq), Hc. now destruct q.
Qed.

Lemma segments_plain (i : string) :
  plain_id i = true ->
  resolve_dots (tl (split_path ("/users/" ++ i))) [] = ["users"; i].
Proof.
  intros Hid. destruct (no_dots_plain i Hid) as (Hs & Hd).
  apply plain_id_spec in Hid as (Hne & Hp).
  change (split_path ("/users/" ++ i)) with ("" :: "users" :: split_path i).
  rewrite (split_path_plain i Hp).
  cbn [tl resolve_dots].
  change (double_dot "users") with false. change (single_dot "users") with false.
  cbn iota. now rewrite Hd, Hs.
Qed.

(** Pasted behind [/users/], a plain identifier is the second segment of the
    path. *)
Lemma url_path_plain (i : string) :
  plain_id i = true -> url_path ("/users/" ++ i) = ["users"; i].
Proof.
  intros Hid. rewrite <- (segments_plain i Hid).
  apply plain_id_spec in Hid as (Hne & Hp).
  unfold url_path.
  rewrite (strip_end_app "/users/" i (strip_end_plain i Hp) Hne).
  change (without_breaks ("/users/" ++ i)) with ("/users/" ++ without_breaks i)%string.
  rewrite (without_breaks_plain i Hp).
  change (path_part ("/users/" ++ i)) with ("/users/" ++ path_part i)%string.
  now rewrite (path_part_plain i Hp).
Qed.

(** Pasted behind [/users/], what follows a [?] or a [#] in the identifier
    is not part of the path. *)
Lemma url_path_cut (i q : string) (c : ascii) :
  plain_id i = true -> plain q = true -> ends_path c = true ->
  url_path ("/users/" ++ i ++ String c q) = ["users"; i].
Proof.
  intros Hid Hq Hc.
  assert (Hc' : is_blank c = false /\ is_break c = false).
  { unfold ends_path in Hc. apply orb_true_iff in Hc as [Hc | Hc];
      apply Ascii.eqb_eq in Hc; now subst c. }
  destruct Hc' as (Hblank & Hbreak).
  rewrite <- (segments_plain i Hid).
  apply plain_id_spec in Hid as (Hne & Hp).
  unfold url_path.
  rewrite (strip_end_app "/users/" (i ++ String c q)).
  - change (without_breaks ("/users/" ++ (i ++ String c q)))
      with ("/users/" ++ without_breaks (i ++ String c q))%string.
    rewrite without_breaks_app, (without_breaks_plain i Hp).
    cbn [without_breaks]. rewrite Hbreak, (without_breaks_plain q Hq).
    change (path_part ("/users/" ++ (i ++ String c q)))
      with ("/users/" ++ path_part (i ++ String c q))%string.
    now rewrite (path_part_cut i q c Hp Hc).
  - apply strip_end_app; [now apply strip_end_cut | discriminate].
  - destruct i; discriminate.
Qed.

End UrlsAndEscapes.

(* ------------------------------------------------------------------ *)
(** ** The router *)

Section Routing.

Import UserService.

Variable decode : string -> option string.

Lemma match_path_incl (pattern : list segment) (path raw : list string) :
  match_path pattern path = Some raw -> incl raw path.
Proof.
  revert path raw. induction pattern as [| [s |] pattern IH]; intros path raw.
  - destruct path as [| x [| y path]]; cbn.
    + intros [= <-]. apply incl_nil_l.
    + destruct x; [| discriminate]. intros [= <-]. apply incl_nil_l.
    + destruct x; discriminate.
  - destruct path as [| x path]; cbn; [discriminate |].
    destruct (lower x =? lower s); [| discriminate].
    intros H. apply incl_tl. now apply IH.
  - destruct path as [| x path]; cbn; [discriminate |].
    destruct (x =? ""); [discriminate |].
    destruct (match_path pattern path) as [params|] eqn:Hm; [| discriminate].
    intros [= <-]. apply incl_cons; [now left | apply incl_tl; now apply IH].
Qed.

Lemma decode_params_none (raw : list string) :
  decode_params decode raw = None -> exists x, In x raw /\ decode x = None.
Proof.
  induction raw as [| x raw IH]; cbn; [discriminate |].
  destruct (decode x) as [y|] eqn:Hx; [| intros _; exists x; auto].
  destruct (decode_params decode raw); [discriminate |].
  intros _. destruct (IH eq_refl) as (x' & Hin & Hd). exists x'. auto.
Qed.

Section Routes.

Variable R : Type.
Variable method_of : R -> method.
Variable pattern_of : R -> list segment.

(** A request is given to a route of the table that has its method and
    whose pattern its path matches, and only without a pending error. *)
Lemma route_request_To (rs : list R) (m : method) (path : list string) (pending : bool)
      (rt : R) (params : list string) :
  route_request decode R method_of pattern_of rs m path pending = To rt params ->
  In rt rs /\ method_of rt = m /\ pending = false.
Proof.
  revert pending. induction rs as [| rt' rest IH]; intros pending; cbn [route_request].
  - destruct pending; discriminate.
  - destruct (match_path (pattern_of rt') path) as [raw|].
    + destruct (decode_params decode raw) as [ps|].
      * destruct pending.
        -- intros H. apply IH in H as (_ & _ & H). discriminate.
        -- destruct (method_eqb (method_of rt') m) eqn:Hm.
           ++ intros [= <- <-]. repeat split; [now left |].
              destruct (method_of rt'), m; cbn in Hm; congruence.
           ++ intros H. apply IH in H as (Hin & Hmeth & Hp). auto using in_cons.
      * intros H. apply IH in H as (_ & _ & H). discriminate.
    + intros H. apply IH in H as (Hin & Hmeth & Hp). auto using in_cons.
Qed.

(** An error is pending only after a segment of the path could not be
    decoded. *)
Lemma route_request_DecodeError (rs : list R) (m : method) (path : list string)
      (pending : bool) :
  route_request decode R method_of pattern_of rs m path pending = DecodeError ->
  pending = true \/ exists x, In x path /\ decode x = None.
Proof.
  revert pending. induction rs as [| rt' rest IH]; intros pending; cbn [route_request].
  - destruct pending; [now left | discriminate].
  - destruct (match_path (pattern_of rt') path) as [raw|] eqn:Hmatch; [| apply IH].
    destruct (decode_params decode raw) as [ps|] eqn:Hdec.
    + destruct pending; [now left |].
      destruct (method_eqb (method_of rt') m); [discriminate | apply IH].
    + intros _. right.
      destruct (decode_params_none raw Hdec) as (x & Hin & Hx).
      exists x. split; [| exact Hx]. eapply match_path_incl; eauto.
Qed.

End Routes.

(** What the application runs for a request whose body was parsed. *)
Lemma app_cases (r : raw_request) (b : create_body) (seen : list labels) :
  raw_body r = Body b ->
  app decode r seen
    = ret (not_found_middleware, mkLabels (raw_method r) "unmatched" 404 :: seen)
  \/ (app decode r seen
      = ret (error_middleware, mkLabels (raw_method r) "unmatched" 500 :: seen)
      /\ exists x, In x (raw_path r) /\ decode x = None)
  \/ exists (h : M response) (route : string),
       app decode r seen
       = (await res <- h;
          ret (res, mkLabels (raw_method r) route (statusCode res) :: seen))
       /\ ((raw_method r = GET
            /\ ((h = ret (res_json MetricsBody) /\ route = "/metrics")
                \/ (h = health /\ route = "/health")
                \/ (h = health_live /\ route = "/health/live")
                \/ (h = health_ready /\ route = "/health/ready")
                \/ (h = get_users /\ route = "/users")
                \/ (exists i, h = get_user i) /\ route = "/users/:id"))
           \/ (raw_method r = POST /\ h = post_users b /\ route = "/users")
           \/ (raw_method r = DELETE /\ (exists i, h = delete_user i)
               /\ route = "/users/:id")).
Proof.
  intros Hb. unfold app. rewrite Hb.
  destruct (route_request decode route route_method route_pattern routes
              (raw_method r) (raw_path r) false) as [rt params | |] eqn:Hroute.
  - right. right.
    apply route_request_To in Hroute as (Hin & Hm & _).
    exists (route_handler rt params b), (route_path (route_pattern rt)).
    split; [reflexivity |].
    unfold routes in Hin. cbn [In] in Hin.
    decompose [or] Hin; try contradiction; subst rt; cbn in Hm |- *; rewrite <- Hm;
      eauto 12.
  - now left.
  - right. left. split; [reflexivity |].
    apply route_request_DecodeError in Hroute as [H | H]; [discriminate | exact H].
Qed.


(** Parameters that decode to themselves are handed on as they are. *)
Lemma decode_params_same (raw : list string) :
  (forall x, In x raw -> decode x = Some x) -> decode_params decode raw = Some raw.
Proof.
  induction raw as [| x raw IH]; intros Hsame; cbn; [reflexivity |].
  rewrite (Hsame x) by now left.
  rewrite IH; [reflexivity |]. intros y Hy. apply Hsame. now right.
Qed.

(** The application and the route table.  For a request whose body
    [express.json()] has parsed and whose path segments decode to
    themselves -- a path without escapes -- the application runs what the
    route table [serve] runs and counts the response once. *)
Theorem app_runs_serve (m : method) (path : list string) (b : create_body)
        (seen : list labels) :
  (forall x, In x path -> decode x = Some x) ->
  exists route,
    app decode (mkRaw m path (Body b)) seen
    = (await res <- serve (mkRequest m path b);
       ret (res, mkLabels m route (statusCode res) :: seen)).
Proof.
  intros Hsame. unfold app, serve.
  cbn [raw_body raw_method raw_path].
  induction routes as [| rt rest IH]; cbn [route_request dispatch req_method req_path req_body].
  - now exists "unmatched".
  - destruct (match_path (route_pattern rt) path) as [raw |] eqn:Hmatch.
    + rewrite decode_params_same.
      * destruct (method_eqb (route_method rt) m); [| exact IH].
        now exists (route_path (route_pattern rt)).
      * intros x Hx. apply Hsame. now apply (match_path_incl _ _ _ Hmatch).
    + destruct (method_eqb (route_method rt) m); exact IH.
Qed.

End Routing.

Section Paths.

Import UserService.

Variable decode : string -> option string.

Lemma match_path_other (s x : string) (pattern : list segment) (path : list string) :
  lower x <> lower s -> match_path (Lit s :: pattern) (x :: path) = None.
Proof.
  intros Hne. cbn [match_path]. apply String.eqb_neq in Hne. now rewrite Hne.
Qed.

Lemma match_path_same (s x : string) (pattern : list segment) (path : list string) :
  lower x = lower s ->
  match_path (Lit s :: pattern) (x :: path) = match_path pattern path.
Proof.
  intros He. cbn [match_path]. apply String.eqb_eq in He. now rewrite He.
Qed.

(** A pattern that has ended does not match a path that goes on with a
    segment other than the empty one. *)
Lemma match_path_end (x : string) (path : list string) :
  x <> "" -> match_path [] (x :: path) = None.
Proof.
  intros Hx. cbn. destruct x; [now contradiction Hx |]. now destruct path.
Qed.

(** A path whose first segment is none of metrics, health and users is left
    to the 404 middleware. *)
Lemma route_request_elsewhere (m : method) (seg : string) (rest : list string) :
  ~ In (lower seg) data_service_prefixes ->
  route_request decode route route_method route_pattern routes m (seg :: rest) false
  = NoRoute.
Proof.
  unfold data_service_prefixes. cbn [In]. intros Hnot.
  unfold routes. cbn [route_request route_pattern].
  rewrite !match_path_other; try reflexivity;
    intros He; apply Hnot; rewrite He; cbn; tauto.
Qed.

Lemma route_request_users_id (m : method) (seg x : string) :
  lower seg = "users" -> x <> "" ->
  route_request decode route route_method route_pattern routes m [seg; x] false
  = match decode x with
    | None => DecodeError
    | Some y =>
        match m with
        | GET => To (mkRoute GET [Lit "users"; Param]
                             (fun params _ => get_user (params_id params))) [y]
        | POST => NoRoute
        | DELETE => To (mkRoute DELETE [Lit "users"; Param]
                                (fun params _ => delete_user (params_id params))) [y]
        end
    end.
Proof.
  intros Hseg Hx. apply String.eqb_neq in Hx.
  unfold routes. cbn [route_request route_pattern route_method].
  rewrite !(match_path_other "metrics"), !(match_path_other "health")
    by (rewrite Hseg; discriminate).
  rewrite !(match_path_same "users") by (now rewrite Hseg).
  cbn [match_path]. rewrite Hx.
  replace (match x with "" => Some [] | String _ _ => None end) with (@None (list string))
    by (destruct x; [discriminate | reflexivity]).
  cbn [decode_params]. destruct (decode x) as [y|]; [| reflexivity].
  now destruct m.
Qed.

End Paths.

Lemma app_runs_serve_witness :
  exists route,
    UserService.app JS.decodeURIComponent
      (UserService.mkRaw GET ["users"; "11111111-aaaa"] (UserService.Body Gateway.no_body)) []
    = UserService.bind
        (UserService.serve (mkRequest GET ["users"; "11111111-aaaa"] Gateway.no_body))
        (fun res => UserService.ret
                      (res, [UserService.mkLabels GET route (statusCode res)])).
Proof.
  apply (app_runs_serve JS.decodeURIComponent GET ["users"; "11111111-aaaa"]
                        Gateway.no_body []).
  intros x [<- | [<- | []]]; reflexivity.
Defined.

(* ------------------------------------------------------------------ *)
(** ** Data service: the routes as a whole *)

Section DataServiceRoutes.

Import UserService.

Ltac open_handlers :=
  unfold health, health_live, health_ready, get_users, get_user, post_users,
    delete_user, try_catch, bind, redis_ping, redis_get, redis_set, uuidv4,
    Date_toISOString, issue, ret.

(** Split on every test a handler makes. *)
Ltac split_tests w :=
  repeat match goal with
    | |- context [outage w ?n] => destruct (outage w n); cbn
    | |- context [find ?p ?l] => destruct (find p l); cbn
    | |- context [(findIndex ?p ?l =? -1)%Z] => destruct (findIndex p l =? -1)%Z; cbn
    | |- context [negb (JS.truthy ?a) || negb (JS.truthy ?b)] =>
        destruct (negb (JS.truthy a) || negb (JS.truthy b)); cbn
    end.

Lemma method_eqb_eq (a b : method) : method_eqb a b = true -> a = b.
Proof. destruct a, b; cbn; congruence. Qed.

(** What [serve] runs for a request: the 404 middleware or the handler of
    a route with the method of the request. *)
Lemma serve_cases (r : request) :
  serve r = ret (res_status_json 404 (ErrorBody "Not found"))
  \/ (req_method r = GET
      /\ (serve r = ret (res_json MetricsBody) \/ serve r = health
          \/ serve r = health_live \/ serve r = health_ready
          \/ serve r = get_users \/ exists i, serve r = get_user i))
  \/ (req_method r = POST /\ serve r = post_users (req_body r))
  \/ (req_method r = DELETE /\ exists i, serve r = delete_user i).
Proof.
  unfold serve, routes.
  cbn [dispatch route_method route_pattern route_handler].
  destruct (req_method r); cbn [method_eqb];
    repeat match goal with
      | |- context [match match_path ?p ?q with _ => _ end] =>
          destruct (match_path p q)
      end; eauto 12.
Qed.

(** Go through what the application runs, then through every test of the
    handler. *)
Ltac app_runs decode r seen w :=
  let b := fresh "b" in
  let Hb := fresh "Hb" in
  let H := fresh "H" in
  let Hx := fresh "Hx" in
  let h := fresh "h" in
  let route := fresh "route" in
  let Hh := fresh "Hh" in
  let Hm := fresh "Hm" in
  let Hr := fresh "Hr" in
  let i := fresh "i" in
  destruct (raw_body r) as [b |] eqn:Hb;
  [ destruct (app_cases decode r b seen Hb) as [H | [(H & Hx) | (h & route & H & Hh)]];
    [ rewrite H
    | rewrite H
    | destruct Hh as [(Hm & [(Hh & Hr) | [(Hh & Hr) | [(Hh & Hr) | [(Hh & Hr)
                              | [(Hh & Hr) | ((i & Hh) & Hr)]]]]])
                     | [(Hm & Hh & Hr) | (Hm & (i & Hh) & Hr)]];
      rewrite H, Hh, Hr; open_handlers; split_tests w ]
  | unfold app; rewrite Hb ].



(** The store changes only with a 201 to a POST or a 204 to a DELETE: every
    other response, the 500 of a failed write included, leaves it as it
    was. *)
Theorem store_changes_only_on_success (r : request) (w : world) :
  exists res, result (serve r) w = Returned res
    /\ (kv (exec (serve r) w) = kv w
        \/ (statusCode res = 201%Z /\ req_method r = POST)
        \/ (statusCode res = 204%Z /\ req_method r = DELETE)).
Proof.
  unfold result, exec.
  destruct (serve_cases r) as [H | [(Hm & [H | [H | [H | [H | [H | (i & H)]]]]])
                                   | [(Hm & H) | (Hm & i & H)]]];
    rewrite H; open_handlers; split_tests w;
    eexists; (split; [reflexivity | cbn; auto]).
Qed.

(** A request issues at most two Redis commands, a GET request at most one
    and never a SET. *)
Theorem commands_per_request (r : request) (w : world) :
  exists cs, trace (exec (serve r) w) = cs ++ trace w
    /\ List.length cs <= 2
    /\ (req_method r = GET -> List.length cs <= 1 /\ writes cs = false).
Proof.
  unfold exec.
  destruct (serve_cases r) as [H | [(Hm & [H | [H | [H | [H | [H | (i & H)]]]]])
                                   | [(Hm & H) | (Hm & i & H)]]];
    rewrite H; open_handlers; split_tests w; cbn;
    match goal with
    | |- exists cs, ?c2 :: ?c1 :: trace w = _ /\ _ => exists [c2; c1]
    | |- exists cs, ?c1 :: trace w = _ /\ _ => exists [c1]
    | |- exists cs, trace w = _ /\ _ => exists []
    end;
    (split; [reflexivity | split; [cbn; lia | ]]);
    intros Hget; try congruence; cbn; split; (lia || reflexivity).
Qed.

Lemma commands_per_request_witness :
  exists cs, trace (exec (serve get_users_request) (boot (holding [ann]) no_outage))
             = cs ++ [] /\ List.length cs <= 1 /\ writes cs = false.
Proof.
  destruct (commands_per_request get_users_request (boot (holding [ann]) no_outage))
    as (cs & Ht & _ & Hget).
  exists cs. split; [exact Ht | exact (Hget eq_refl)].
Defined.



(** A 500 of the data service carries one of five fixed bodies -- those of
    the four handlers and that of the error middleware -- and leaves the
    store as it was; what Redis or the parser reported is not in the
    response. *)
Theorem failures_do_not_leak (decode : string -> option string) (r : raw_request)
        (seen : list labels) (w : world) :
  exists res seen',
    result (app decode r seen) w = Returned (res, seen')
    /\ (statusCode res = 500%Z ->
        In (payload res) failure_bodies /\ kv (exec (app decode r seen) w) = kv w).
Proof.
  unfold result, exec, failure_bodies.
  app_runs decode r seen w;
    eexists _, _; (split; [reflexivity |]); cbn; intros H500;
    try discriminate; (split; [tauto | reflexivity]).
Qed.

Lemma failures_do_not_leak_witness :
  exists res seen',
    result (app JS.decodeURIComponent
                (mkRaw DELETE ["users"; "11111111-aaaa"] (Body Gateway.no_body)) [])
           (boot (holding [ann]) redis_down) = Returned (res, seen')
    /\ In (payload res) failure_bodies.
Proof.
  destruct (failures_do_not_leak JS.decodeURIComponent
              (mkRaw DELETE ["users"; "11111111-aaaa"] (Body Gateway.no_body)) []
              (boot (holding [ann]) redis_down))
    as (res & seen' & Hres & Hleak).
  exists res, seen'. split; [exact Hres |].
  apply Hleak.
  vm_compute in Hres. inversion Hres. reflexivity.
Defined.

End DataServiceRoutes.

(* ------------------------------------------------------------------ *)
(** ** Data service: reading, and reading after writing *)

Section DataServiceSequences.

Import UserService.

(** [findIndex] says -1 exactly when [find] finds nothing. *)
Lemma findIndex_from_find (p : user -> bool) (users : list user) (i : Z) :
  (0 <= i)%Z ->
  (findIndex_from p users i = (-1)%Z <-> find p users = None)
  /\ (i <= findIndex_from p users i \/ findIndex_from p users i = -1)%Z.
Proof.
  revert i. induction users as [|u rest IH]; intros i Hi; cbn.
  - split; [tauto | now right].
  - destruct (p u).
    + split; [| left; lia]. split; [lia | discriminate].
    + destruct (IH (i + 1)%Z ltac:(lia)) as (Hiff & Hge).
      split; [exact Hiff | lia].
Qed.

Lemma findIndex_find (p : user -> bool) (users : list user) :
  (findIndex p users =? -1)%Z = true <-> find p users = None.
Proof.
  rewrite Z.eqb_eq. unfold findIndex.
  now apply findIndex_from_find.
Qed.

(** The first match in a list, given where it is. *)
Lemma find_first (p : user -> bool) (l1 l2 : list user) (u : user) :
  (forall x, In x l1 -> p x = false) -> p u = true ->
  find p (l1 ++ u :: l2) = Some u.
Proof.
  intros Hl1 Hu. induction l1 as [|x rest IH]; cbn.
  - now rewrite Hu.
  - rewrite (Hl1 x (or_introl eq_refl)). apply IH.
    intros y Hy. apply Hl1. now right.
Qed.

(** The world a successful POST /users leaves. *)
Lemma post_users_run (b : create_body) (w : world) :
  JS.truthy (body_name b) = true -> JS.truthy (body_email b) = true ->
  redis_up 2 w ->
  (forall u, In u (stored w) -> JS.strict_eq (email u) (body_email b) = false) ->
  result (post_users b) w = Returned (mkResponse 201 (UserBody (created w b)))
  /\ stored (exec (post_users b) w) = stored w ++ [created w b]
  /\ outage (exec (post_users b) w) = outage w
  /\ List.length (trace (exec (post_users b) w)) = 2 + List.length (trace w).
Proof.
  intros Hn He Hup Hnone.
  pose proof (redis_up_0 _ _ Hup) as H0. pose proof (redis_up_1 _ _ Hup) as H1.
  assert (Hfind : find (has_email (body_email b)) (parse_users (kv w USERS_KEY)) = None).
  { apply find_none_iff. intros u Hu. unfold has_email. now apply Hnone. }
  unfold result, exec, stored, post_users, try_catch, bind, redis_get, redis_set,
    uuidv4, Date_toISOString, issue, ret.
  rewrite Hn, He. cbn. rewrite H0. cbn. rewrite Hfind. cbn. rewrite H1. cbn.
  unfold created, JS.or_else.
  split; [reflexivity |]. split; [| now split].
  rewrite map_app, parse_users_stable. reflexivity.
Qed.

(** The world a successful DELETE /users/:id leaves. *)
Lemma delete_user_run (i : string) (w : world) (l1 l2 : list user) (u : user) :
  redis_up 2 w ->
  stored w = l1 ++ u :: l2 -> id u = i -> (forall x, In x l1 -> id x <> i) ->
  result (delete_user i) w = Returned (mkResponse 204 NoBody)
  /\ stored (exec (delete_user i) w) = l1 ++ l2
  /\ outage (exec (delete_user i) w) = outage w
  /\ List.length (trace (exec (delete_user i) w)) = 2 + List.length (trace w).
Proof.
  intros Hup Husers Hu Hl1. unfold stored in Husers.
  pose proof (redis_up_0 _ _ Hup) as H0. pose proof (redis_up_1 _ _ Hup) as H1.
  assert (Hidx : findIndex (has_id i) (parse_users (kv w USERS_KEY))
                 = Z.of_nat (List.length l1)).
  { rewrite Husers. apply findIndex_first.
    - intros x Hx. apply has_id_false. now apply Hl1.
    - now apply has_id_true. }
  unfold result, exec, stored, delete_user, try_catch, bind, redis_get, redis_set, issue, ret.
  rewrite H0. cbn. rewrite Hidx.
  assert (Hne : (Z.of_nat (List.length l1) =? -1)%Z = false) by (apply Z.eqb_neq; lia).
  rewrite Hne, Nat2Z.id. cbn. rewrite H1. cbn.
  rewrite Husers, splice1_at.
  split; [reflexivity |]. split; [| now split].
  pose proof (parse_users_stable (kv w USERS_KEY)) as Hst. rewrite Husers in Hst.
  destruct (stable_parts _ _ _ Hst) as (Hl1' & _ & Hl2').
  rewrite map_app, Hl1', Hl2'. reflexivity.
Qed.

(** Redis keeps answering after two commands that were answered. *)
Lemma redis_up_later (k : nat) (w w' : world) :
  redis_up (2 + k) w -> outage w' = outage w ->
  List.length (trace w') = 2 + List.length (trace w) ->
  redis_up k w'.
Proof.
  intros Hup Hout Hlen i Hi. rewrite Hout, Hlen.
  replace (2 + List.length (trace w) + i) with (List.length (trace w) + (2 + i)) by lia.
  apply Hup. lia.
Qed.

(** GET /users/:id, the GET of the collection succeeding: 200 with the first
    stored record that has the identifier, 404 when no record has it; one
    GET is issued and the store is as it was. *)
Theorem get_user_contract (i : string) (w : world) :
  redis_up 1 w ->
  (forall l1 u l2, stored w = l1 ++ u :: l2 -> id u = i ->
     (forall x, In x l1 -> id x <> i) ->
     result (get_user i) w = Returned (mkResponse 200 (UserBody u)))
  /\ ((forall u, In u (stored w) -> id u <> i) ->
      result (get_user i) w = Returned not_found)
  /\ kv (exec (get_user i) w) = kv w
  /\ trace (exec (get_user i) w) = GET_ USERS_KEY :: trace w.
Proof.
  intros Hup. apply redis_up_0 in Hup.
  unfold result, exec, stored, get_user, try_catch, bind, redis_get, issue, ret.
  rewrite Hup. cbn.
  split; [| split].
  - intros l1 u l2 Husers Hu Hl1. rewrite Husers, find_first; [reflexivity | |].
    + intros x Hx. apply has_id_false. now apply Hl1.
    + now apply has_id_true.
  - intros Hnone.
    assert (Hfind : find (has_id i) (parse_users (kv w USERS_KEY)) = None).
    { apply find_none_iff. intros u Hu. apply has_id_false. now apply Hnone. }
    now rewrite Hfind.
  - destruct (find (has_id i) (parse_users (kv w USERS_KEY))); now split.
Qed.

Lemma get_user_contract_witness :
  let w := boot (holding [ann; bea]) no_outage in
  result (get_user "22222222-bbbb") w = Returned (mkResponse 200 (UserBody bea))
  /\ result (get_user "33333333-cccc") w = Returned not_found.
Proof.
  intros w.
  destruct (get_user_contract "22222222-bbbb" w (no_outage_redis_up 1 _)) as (Hfound & _).
  destruct (get_user_contract "33333333-cccc" w (no_outage_redis_up 1 _)) as (_ & Hmiss & _).
  split.
  - apply (Hfound [ann] bea []); [reflexivity | reflexivity |].
    intros x [Hx | []]. subst x. discriminate.
  - apply Hmiss. intros u [Hu | [Hu | []]]; subst u; discriminate.
Defined.

(** With the collection readable, DELETE /users/:id answers 404 exactly
    when GET /users/:id does. *)
Theorem get_and_delete_agree_on_404 (i : string) (w : world) :
  redis_up 1 w ->
  (result (get_user i) w = Returned not_found
   <-> result (delete_user i) w = Returned not_found).
Proof.
  intros Hup. apply redis_up_0 in Hup.
  unfold result, get_user, delete_user, try_catch, bind, redis_get, redis_set, issue, ret.
  rewrite Hup. cbn.
  pose proof (findIndex_find (has_id i) (parse_users (kv w USERS_KEY))) as Hiff.
  destruct (find (has_id i) (parse_users (kv w USERS_KEY))) as [u|];
    destruct (findIndex (has_id i) (parse_users (kv w USERS_KEY)) =? -1)%Z; cbn.
  - destruct Hiff as (Hiff & _). specialize (Hiff eq_refl). discriminate.
  - split; [discriminate |].
    destruct (outage w (S (List.length (trace w)))); cbn; discriminate.
  - tauto.
  - destruct Hiff as (_ & Hiff). specialize (Hiff eq_refl). discriminate.
Qed.

Lemma get_and_delete_agree_on_404_witness :
  result (get_user "33333333-cccc") (boot (holding [ann]) no_outage) = Returned not_found
  <-> result (delete_user "33333333-cccc") (boot (holding [ann]) no_outage)
      = Returned not_found.
Proof.
  apply (get_and_delete_agree_on_404 "33333333-cccc" (boot (holding [ann]) no_outage)).
  apply no_outage_redis_up.
Defined.

End DataServiceSequences.

Section DataServiceRoundTrips.

Import UserService.

Lemma get_user_found (i : string) (w : world) (l1 l2 : list user) (u : user) :
  redis_up 1 w ->
  stored w = l1 ++ u :: l2 -> id u = i -> (forall x, In x l1 -> id x <> i) ->
  result (get_user i) w = Returned (mkResponse 200 (UserBody u)).
Proof.
  intros Hup Husers Hu Hl1. apply redis_up_0 in Hup. unfold stored in Husers.
  unfold result, get_user, try_catch, bind, redis_get, issue, ret.
  rewrite Hup. cbn. rewrite Husers, find_first; [reflexivity | |].
  - intros x Hx. apply has_id_false. now apply Hl1.
  - now apply has_id_true.
Qed.

Lemma get_user_missing (i : string) (w : world) :
  redis_up 1 w -> (forall u, In u (stored w) -> id u <> i) ->
  result (get_user i) w = Returned not_found.
Proof.
  intros Hup Hnone. apply redis_up_0 in Hup. unfold stored in Hnone.
  assert (Hfind : find (has_id i) (parse_users (kv w USERS_KEY)) = None).
  { apply find_none_iff. intros u Hu. apply has_id_false. now apply Hnone. }
  unfold result, get_user, try_catch, bind, redis_get, issue, ret.
  rewrite Hup. cbn. now rewrite Hfind.
Qed.

Lemma delete_user_missing (i : string) (w : world) :
  redis_up 1 w -> (forall u, In u (stored w) -> id u <> i) ->
  result (delete_user i) w = Returned not_found.
Proof.
  intros Hup Hnone. apply redis_up_0 in Hup. unfold stored in Hnone.
  unfold result, delete_user, try_catch, bind, redis_get, issue, ret.
  rewrite Hup. cbn. unfold findIndex. rewrite findIndex_from_none; [reflexivity |].
  intros u Hu. apply has_id_false. now apply Hnone.
Qed.

Lemma post_users_duplicate (b : create_body) (w : world) (u : user) :
  JS.truthy (body_name b) = true -> JS.truthy (body_email b) = true ->
  redis_up 1 w ->
  In u (stored w) -> JS.strict_eq (email u) (body_email b) = true ->
  result (post_users b) w = Returned conflict
  /\ kv (exec (post_users b) w) = kv w.
Proof.
  intros Hn He Hup Hin Heq. apply redis_up_0 in Hup. unfold stored in Hin.
  unfold result, exec, post_users, try_catch, bind, redis_get, issue, ret.
  rewrite Hn, He. cbn. rewrite Hup. cbn.
  destruct (find (has_email (body_email b)) (parse_users (kv w USERS_KEY))) eqn:Hfind.
  - cbn. now split.
  - exfalso. rewrite find_none_iff in Hfind.
    specialize (Hfind u Hin). unfold has_email in Hfind. congruence.
Qed.

(** Create, then read: a record created with an identifier that no stored
    record has is what GET /users/:id answers for that identifier right
    after: the record of the 201, with the name and e-mail that were posted
    as JSON writes them (null for a number outside the range of a
    double). *)
Theorem create_then_get (b : create_body) (w : world) :
  JS.truthy (body_name b) = true -> JS.truthy (body_email b) = true ->
  redis_up 3 w ->
  (forall x, In x (stored w) -> JS.strict_eq (email x) (body_email b) = false) ->
  (forall x, In x (stored w) -> id x <> uuid_src w (uuid_used w)) ->
  exists u,
    result (post_users b) w = Returned (mkResponse 201 (UserBody u))
    /\ name u = JS.json (body_name b) /\ email u = JS.json (body_email b)
    /\ result (get_user (id u)) (exec (post_users b) w)
       = Returned (mkResponse 200 (UserBody u)).
Proof.
  intros Hn He Hup Hmail Hfresh.
  destruct (post_users_run b w Hn He) as (Hres & Hst & Hout & Hlen); [| exact Hmail |].
  { intros i Hi. apply Hup. lia. }
  exists (created w b). split; [exact Hres |]. split; [reflexivity |]. split; [reflexivity |].
  apply (get_user_found _ _ (stored w) []).
  - now apply (redis_up_later 1 w).
  - exact Hst.
  - reflexivity.
  - exact Hfresh.
Qed.

Lemma create_then_get_witness :
  let b := mkBody (JS.Str "Bea") (JS.Str "bea@x.io") JS.Undefined in
  let w := boot (holding [ann]) no_outage in
  exists u,
    result (post_users b) w = Returned (mkResponse 201 (UserBody u))
    /\ name u = JS.Str "Bea" /\ email u = JS.Str "bea@x.io"
    /\ result (get_user (id u)) (exec (post_users b) w)
       = Returned (mkResponse 200 (UserBody u)).
Proof.
  apply (create_then_get (mkBody (JS.Str "Bea") (JS.Str "bea@x.io") JS.Undefined)
                         (boot (holding [ann]) no_outage)).
  - reflexivity.
  - reflexivity.
  - apply no_outage_redis_up.
  - intros x [Hx | []]. now subst x.
  - intros x [Hx | []]. subst x. discriminate.
Defined.



(** Delete, then read or delete again: once the only record with an
    identifier is deleted, GET and DELETE for that identifier answer 404,
    and the other records are stored in their order. *)
Theorem delete_then_gone (i : string) (w : world) (l1 l2 : list user) (u : user) :
  redis_up 3 w ->
  stored w = l1 ++ u :: l2 -> id u = i ->
  (forall x, In x (l1 ++ l2) -> id x <> i) ->
  result (delete_user i) w = Returned (mkResponse 204 NoBody)
  /\ stored (exec (delete_user i) w) = l1 ++ l2
  /\ result (get_user i) (exec (delete_user i) w) = Returned not_found
  /\ result (delete_user i) (exec (delete_user i) w) = Returned not_found.
Proof.
  intros Hup Husers Hu Hothers.
  destruct (delete_user_run i w l1 l2 u) as (Hres & Hst & Hout & Hlen); try assumption.
  { intros k Hk. apply Hup. lia. }
  { intros x Hx. apply Hothers. apply in_or_app. now left. }
  assert (Hup' : redis_up 1 (exec (delete_user i) w)) by now apply (redis_up_later 1 w).
  repeat split; try assumption.
  - apply get_user_missing; [exact Hup' | now rewrite Hst].
  - apply delete_user_missing; [exact Hup' | now rewrite Hst].
Qed.

Lemma delete_then_gone_witness :
  let w := boot (holding [ann; bea]) no_outage in
  result (delete_user "11111111-aaaa") w = Returned (mkResponse 204 NoBody)
  /\ stored (exec (delete_user "11111111-aaaa") w) = [bea]
  /\ result (get_user "11111111-aaaa") (exec (delete_user "11111111-aaaa") w)
     = Returned not_found
  /\ result (delete_user "11111111-aaaa") (exec (delete_user "11111111-aaaa") w)
     = Returned not_found.
Proof.
  apply (delete_then_gone "11111111-aaaa" (boot (holding [ann; bea]) no_outage) [] [bea] ann).
  - apply no_outage_redis_up.
  - reflexivity.
  - reflexivity.
  - intros x [Hx | []]. subst x. discriminate.
Defined.

End DataServiceRoundTrips.

(* ------------------------------------------------------------------ *)
(** ** Data service: what the stored collection keeps *)

Section CollectionInvariant.

Import UserService.

Lemma unique_emails_snoc (users : list user) (u : user) :
  unique_emails users ->
  (forall x, In x users -> JS.strict_eq (email x) (email u) = false) ->
  unique_emails (users ++ [u]).
Proof.
  induction users as [|y rest IH]; cbn [unique_emails List.app]; intros Huniq Hnew.
  - split; [intros x [] | exact I].
  - destruct Huniq as (Hy & Hrest). split.
    + intros x Hx. apply in_app_or in Hx. destruct Hx as [Hx | [Hx | []]].
      * now apply Hy.
      * subst x. apply Hnew. now left.
    + apply IH; [exact Hrest |]. intros x Hx. apply Hnew. now right.
Qed.

Lemma splice1_incl (users : list user) (n : nat) (x : user) :
  In x (splice1 users n) -> In x users.
Proof.
  revert n. induction users as [|y rest IH]; intros n; cbn; [tauto |].
  destruct n as [|n]; cbn.
  - now right.
  - intros [Hx | Hx]; [now left | right; now apply (IH n)].
Qed.

Lemma unique_emails_splice1 (users : list user) (n : nat) :
  unique_emails users -> unique_emails (splice1 users n).
Proof.
  revert n. induction users as [|y rest IH]; intros n; cbn; [tauto |].
  intros (Hy & Hrest). destruct n as [|n]; cbn; [exact Hrest |].
  split; [| now apply IH].
  intros x Hx. apply Hy. now apply (splice1_incl rest n).
Qed.

Lemma splice1_map (f : user -> user) (users : list user) (n : nat) :
  map f (splice1 users n) = splice1 (map f users) n.
Proof.
  revert n. induction users as [|y rest IH]; intros n; cbn; [reflexivity |].
  destruct n as [|n]; cbn; [reflexivity | now rewrite IH].
Qed.

Lemma post_users_keeps_unique (b : create_body) (w : world) :
  JS.json (body_email b) = body_email b ->
  unique_emails (stored w) -> unique_emails (stored (exec (post_users b) w)).
Proof.
  intros Hkept Huniq. unfold stored in *.
  unfold exec, post_users, try_catch, bind, redis_get, redis_set,
    uuidv4, Date_toISOString, issue, ret.
  destruct (negb (JS.truthy (body_name b)) || negb (JS.truthy (body_email b)));
    [exact Huniq |].
  cbn. destruct (outage w (List.length (trace w))); cbn; [exact Huniq |].
  destruct (find (has_email (body_email b)) (parse_users (kv w USERS_KEY))) eqn:Hfind;
    cbn; [exact Huniq |].
  destruct (outage w (S (List.length (trace w)))); cbn; [exact Huniq |].
  rewrite map_app, parse_users_stable.
  apply unique_emails_snoc; [exact Huniq |].
  rewrite find_none_iff in Hfind. cbn. rewrite Hkept. exact Hfind.
Qed.

Lemma delete_user_keeps_unique (i : string) (w : world) :
  unique_emails (stored w) -> unique_emails (stored (exec (delete_user i) w)).
Proof.
  intros Huniq. unfold stored in *.
  unfold exec, delete_user, try_catch, bind, redis_get, redis_set, issue, ret.
  destruct (outage w (List.length (trace w))); cbn; [exact Huniq |].
  destruct (findIndex (has_id i) (parse_users (kv w USERS_KEY)) =? -1)%Z;
    cbn; [exact Huniq |].
  destruct (outage w (S (List.length (trace w)))); cbn; [exact Huniq |].
  rewrite splice1_map, parse_users_stable.
  now apply unique_emails_splice1.
Qed.

Lemma initializeData_keeps_unique (w : world) :
  unique_emails (stored w) -> unique_emails (stored (exec initializeData w)).
Proof.
  intros Huniq. unfold stored in *.
  unfold exec, initializeData, try_catch, bind, redis_connect, redis_exists, redis_set,
    sampleUsers, uuidv4, Date_toISOString, issue, ret.
  destruct (outage w (List.length (trace w))); cbn; [exact Huniq |].
  destruct (outage w (S (List.length (trace w)))); cbn; [exact Huniq |].
  destruct (kv w USERS_KEY) as [data|] eqn:Hkey; cbn;
    [rewrite Hkey; exact Huniq |].
  destruct (outage w (S (S (List.length (trace w))))); cbn;
    [rewrite Hkey; exact Huniq |].
  repeat split; intros x Hx; cbn in Hx;
    repeat (destruct Hx as [Hx | Hx]; [subst x; reflexivity |]); contradiction.
Qed.

(** E-mail uniqueness is kept by seeding and by every request whose e-mail
    JSON keeps (any string, boolean or finite number): when no two stored
    records have [===] e-mails, none have afterwards, whatever Redis does in
    between.  (An e-mail outside the range of a double is stored as null
    and is the exception: see [infinite_emails_repeat].) *)
Theorem unique_emails_invariant (w : world) :
  unique_emails (stored w) ->
  unique_emails (stored (exec initializeData w))
  /\ forall r, JS.json (body_email (req_body r)) = body_email (req_body r) ->
               unique_emails (stored (exec (serve r) w)).
Proof.
  intros Huniq. split; [now apply initializeData_keeps_unique |].
  intros r Hkept.
  destruct (serve_cases r) as [H | [(_ & [H | [H | [H | [H | [H | (i & H)]]]]])
                                   | [(_ & H) | (_ & i & H)]]];
    rewrite H;
    try (now apply post_users_keeps_unique);
    try (now apply delete_user_keeps_unique);
    unfold stored, exec, health, health_live, health_ready, get_users, get_user,
      try_catch, bind, redis_ping, redis_get, Date_toISOString, issue, ret;
    repeat match goal with
      | |- context [outage w ?n] => destruct (outage w n); cbn
      | |- context [find ?p ?l] => destruct (find p l); cbn
      end;
    exact Huniq.
Qed.

Lemma unique_emails_invariant_witness :
  let w := boot (holding [ann; bea]) no_outage in
  unique_emails (stored (exec initializeData w))
  /\ forall r, JS.json (body_email (req_body r)) = body_email (req_body r) ->
               unique_emails (stored (exec (serve r) w)).
Proof.
  apply (unique_emails_invariant (boot (holding [ann; bea]) no_outage)).
  cbn. repeat split; intros x Hx;
    repeat (destruct Hx as [Hx | Hx]; [subst x; reflexivity |]); contradiction.
Defined.

(** Two POSTs with an e-mail outside the range of a double are both
    answered 201, and both records are stored with the e-mail null. *)
Lemma infinite_emails_repeat :
  let b := mkBody (JS.Str "Ann") (JS.Num PrimFloat.infinity) JS.Undefined in
  let w := boot fresh_store no_outage in
  statusCode_of (result (post_users b) w) = Some 201%Z
  /\ statusCode_of (result (post_users b) (exec (post_users b) w)) = Some 201%Z
  /\ map email (stored (exec (post_users b) (exec (post_users b) w)))
     = [JS.Null; JS.Null].
Proof. repeat split. Qed.

End CollectionInvariant.

(* ------------------------------------------------------------------ *)
(** ** Data service: routing, startup and request metrics *)

Section DataServiceApplication.

Import UserService.

(** Health and liveness never depend on Redis: in every world both answer
    200 and issue no command, also where readiness answers 503. *)
Theorem liveness_ignores_store (w : world) :
  serve live_request w = (Returned (mkResponse 200 (StatusBody "alive")), w)
  /\ result (serve health_probe) w
     = Returned (mkResponse 200 (HealthBody "healthy" "user-service"
                                            (clock_src w (clock_used w))))
  /\ trace (exec (serve health_probe) w) = trace w
  /\ kv (exec (serve health_probe) w) = kv w
  /\ (outage w (List.length (trace w)) = true ->
      result (serve ready_request) w = Returned not_ready).
Proof.
  repeat split.
  intros Hout. change (serve ready_request) with health_ready.
  unfold result, health_ready, try_catch, bind, redis_ping, issue, ret.
  now rewrite Hout.
Qed.

Lemma liveness_ignores_store_witness :
  result (serve ready_request) (boot fresh_store redis_down) = Returned not_ready.
Proof.
  apply (proj2 (proj2 (proj2 (proj2 (liveness_ignores_store (boot fresh_store redis_down)))))).
  reflexivity.
Defined.

(** A start without Redis leaves a degraded service: it is alive, not
    ready, and answers 500 where it needs the collection. *)
Theorem start_without_redis (w : world) :
  (forall n, outage w n = true) ->
  result start w = Returned true
  /\ kv (exec start w) = kv w
  /\ result (serve live_request) (exec start w)
     = Returned (mkResponse 200 (StatusBody "alive"))
  /\ result (serve ready_request) (exec start w) = Returned not_ready
  /\ result (serve get_users_request) (exec start w)
     = Returned (mkResponse 500 (ErrorBody "Failed to retrieve users")).
Proof.
  intros Hdown.
  change (serve live_request) with health_live.
  change (serve ready_request) with health_ready.
  change (serve get_users_request) with get_users.
  unfold result, exec, start, initializeData, try_catch, bind, redis_connect,
    redis_exists, issue, ret.
  rewrite Hdown. cbn.
  unfold health_ready, get_users, try_catch, bind, redis_ping, redis_get, issue, ret.
  cbn. rewrite !Hdown. now repeat split.
Qed.

Lemma start_without_redis_witness :
  result (serve get_users_request) (exec start (boot (holding [ann]) redis_down))
  = Returned (mkResponse 500 (ErrorBody "Failed to retrieve users")).
Proof.
  apply (start_without_redis (boot (holding [ann]) redis_down)).
  reflexivity.
Defined.

(** A first start in front of an empty, answering Redis: the list route
    then answers with the three sample records and total 3. *)
Theorem start_then_list (w : world) :
  kv w USERS_KEY = None -> redis_up 4 w ->
  result get_users (exec start w) = Returned (mkResponse 200 (UsersBody (seed w) 3)).
Proof.
  intros Hkey Hup.
  pose proof (redis_up_0 _ _ Hup) as H0.
  pose proof (redis_up_1 _ _ Hup) as H1.
  pose proof (redis_up_2 _ _ Hup) as H2.
  assert (H3 : outage w (S (S (S (List.length (trace w))))) = false).
  { replace (S (S (S (List.length (trace w))))) with (List.length (trace w) + 3) by lia.
    apply Hup. lia. }
  unfold result, exec, start, initializeData, try_catch, bind, redis_connect,
    redis_exists, redis_set, sampleUsers, uuidv4, Date_toISOString, issue, ret.
  rewrite H0. cbn. rewrite H1. cbn. rewrite Hkey. cbn. rewrite H2. cbn.
  unfold get_users, try_catch, bind, redis_get, issue, ret. cbn.
  rewrite H3. reflexivity.
Qed.

Lemma start_then_list_witness :
  result get_users (exec start (boot fresh_store no_outage))
  = Returned (mkResponse 200 (UsersBody (seed (boot fresh_store no_outage)) 3)).
Proof.
  apply (start_then_list (boot fresh_store no_outage)).
  - reflexivity.
  - apply no_outage_redis_up.
Defined.

(** Requests outside the routes.  A path whose first segment is none of
    metrics, health and users, and a POST to /users/:id, get the 404 of the
    last middleware; a parameter that cannot be decoded gets the 500 of the
    error middleware, be the method GET, POST or DELETE.  Both are counted
    as 'unmatched' and leave the world as it was.  Routing ignores the
    case of letters and one slash at the end of the path: GET /USERS and
    GET /users/ list the users. *)
Theorem unrouted_requests (decode : string -> option string) (m : method)
        (b : create_body) (seen : list labels) (w : world) :
  (forall seg rest, ~ In (lower seg) data_service_prefixes ->
     app decode (mkRaw m (seg :: rest) (Body b)) seen w
     = (Returned (fallback_404, mkLabels m "unmatched" 404 :: seen), w))
  /\ (forall seg x y, lower seg = "users" -> x <> "" -> decode x = Some y ->
      app decode (mkRaw POST [seg; x] (Body b)) seen w
      = (Returned (fallback_404, mkLabels POST "unmatched" 404 :: seen), w))
  /\ (forall seg x, lower seg = "users" -> x <> "" -> decode x = None ->
      app decode (mkRaw m [seg; x] (Body b)) seen w
      = (Returned (error_middleware, mkLabels m "unmatched" 500 :: seen), w))
  /\ (forall seg, lower seg = "users" ->
      app decode (mkRaw GET [seg] (Body b)) seen
      = (await res <- get_users;
         ret (res, mkLabels GET "/users" (statusCode res) :: seen)))
  /\ app decode (mkRaw GET ["users"; ""] (Body b)) seen
     = (await res <- get_users;
        ret (res, mkLabels GET "/users" (statusCode res) :: seen)).
Proof.
  unfold app. cbn [raw_body raw_method raw_path].
  split; [| split; [| split; [| split]]].
  - intros seg rest Hseg. now rewrite route_request_elsewhere.
  - intros seg x y Hseg Hx Hy. now rewrite route_request_users_id, Hy.
  - intros seg x Hseg Hx Hnone. now rewrite route_request_users_id, Hnone.
  - intros seg Hseg. unfold routes. cbn [route_request route_pattern route_method].
    rewrite !(match_path_other "metrics"), !(match_path_other "health")
      by (rewrite Hseg; discriminate).
    rewrite !(match_path_same "users") by (now rewrite Hseg).
    reflexivity.
  - reflexivity.
Qed.

Lemma unrouted_requests_witness :
  app JS.decodeURIComponent (mkRaw GET ["user"; "42"] (Body Gateway.no_body)) []
      (boot (holding [ann]) redis_down)
    = (Returned (fallback_404, [mkLabels GET "unmatched" 404]),
       boot (holding [ann]) redis_down)
  /\ app JS.decodeURIComponent (mkRaw GET ["users"; "%E0%A4%A"] (Body Gateway.no_body)) []
         (boot (holding [ann]) no_outage)
    = (Returned (error_middleware, [mkLabels GET "unmatched" 500]),
       boot (holding [ann]) no_outage)
  /\ result (app JS.decodeURIComponent (mkRaw GET ["USERS"] (Body Gateway.no_body)) [])
            (boot (holding [ann]) no_outage)
    = Returned (mkResponse 200 (UsersBody [ann] 1), [mkLabels GET "/users" 200]).
Proof.
  split; [| split].
  - apply (proj1 (unrouted_requests JS.decodeURIComponent GET Gateway.no_body []
                    (boot (holding [ann]) redis_down))).
    cbn. intros [H | [H | [H | []]]]; discriminate.
  - apply (proj1 (proj2 (proj2 (unrouted_requests JS.decodeURIComponent GET Gateway.no_body []
                    (boot (holding [ann]) no_outage))))).
    + reflexivity.
    + discriminate.
    + reflexivity.
  - rewrite (proj1 (proj2 (proj2 (proj2 (unrouted_requests JS.decodeURIComponent GET
                    Gateway.no_body [] (boot (holding [ann]) no_outage))))) "USERS" eq_refl).
    reflexivity.
Defined.

(** All of the commands settle: so does every run of them. *)
Lemma settle_total (takes : timing) :
  (forall n, exists t, takes n = Some t) ->
  forall count first, exists t, settle takes first count = Some t.
Proof.
  intros Hall. induction count as [| count IH]; intros first; cbn [settle].
  - now exists 0%N.
  - destruct (Hall first) as (t & Ht). destruct (IH (S first)) as (t' & Ht').
    rewrite Ht, Ht'. eauto.
Qed.

(** [start] issues the CONNECT of [initializeData] first, and more commands
    only after it; whatever they do, it ends with the server set. *)
Lemma start_issues (w : world) :
  exists cs k, trace (exec start w) = cs ++ trace w
               /\ List.length cs = S k
               /\ result start w = Returned true
               /\ (outage w (List.length (trace w)) = true -> k = 0).
Proof.
  unfold result, exec, start, initializeData, try_catch, bind, redis_connect,
    redis_exists, redis_set, sampleUsers, uuidv4, Date_toISOString, issue, ret.
  destruct (outage w (List.length (trace w))) eqn:H0; cbn.
  - exists [CONNECT], 0. now repeat split.
  - destruct (outage w (S (List.length (trace w)))) eqn:H1; cbn.
    + exists [EXISTS USERS_KEY; CONNECT], 1. repeat split. discriminate.
    + destruct (kv w USERS_KEY); cbn.
      * exists [EXISTS USERS_KEY; CONNECT], 1. repeat split. discriminate.
      * destruct (outage w (S (S (List.length (trace w))))); cbn;
          eexists [_; _; _], 2; (repeat split; discriminate).
Qed.

(** Startup in time.  [start] never throws, and it sets the server -- the
    service listens -- as soon as the Redis commands of [initializeData] have
    settled: right after a CONNECT that is rejected, and in any case when
    every command settles.  While the CONNECT stays pending, as in front of
    a server that accepts the connection and does not reply, the service
    does not listen. *)
Theorem start_listens (takes : timing) (w : world) :
  (forall t o, timed takes start w = Some (t, o) -> o = Returned true)
  /\ (takes (List.length (trace w)) = None -> timed takes start w = None)
  /\ (forall t, takes (List.length (trace w)) = Some t ->
      outage w (List.length (trace w)) = true ->
      timed takes start w = Some (t, Returned true))
  /\ ((forall n, exists t, takes n = Some t) ->
      exists t, timed takes start w = Some (t, Returned true)).
Proof.
  destruct (start_issues w) as (cs & k & Htrace & Hcs & Hres & Hrefused).
  unfold timed. fold (exec start w). fold (result start w).
  rewrite Htrace, Hres, length_app.
  replace (List.length cs + List.length (trace w) - List.length (trace w)) with (S k) by lia.
  split; [| split; [| split]].
  - intros t o. destruct (settle takes (List.length (trace w)) (S k)); [| discriminate].
    now intros [= _ <-].
  - intros Hnone. cbn [settle]. now rewrite Hnone.
  - intros t Ht Hout. rewrite (Hrefused Hout), settle_one, Ht. reflexivity.
  - intros Hall. destruct (settle_total takes Hall (S k) (List.length (trace w))) as (t & Ht).
    rewrite Ht. eauto.
Qed.

Lemma start_listens_witness :
  timed (fun _ => None) start (boot fresh_store no_outage) = None
  /\ timed (fun _ => Some 30%N) start (boot fresh_store redis_down)
     = Some (30%N, Returned true)
  /\ exists t, timed (fun _ => Some 2%N) start (boot fresh_store no_outage)
               = Some (t, Returned true).
Proof.
  split; [| split].
  - apply (proj1 (proj2 (start_listens (fun _ => None) (boot fresh_store no_outage)))).
    reflexivity.
  - apply (proj1 (proj2 (proj2 (start_listens (fun _ => Some 30%N)
                                               (boot fresh_store redis_down)))) 30%N);
      reflexivity.
  - apply (proj2 (proj2 (proj2 (start_listens (fun _ => Some 2%N)
                                               (boot fresh_store no_outage))))).
    intros n. now exists 2%N.
Defined.

End DataServiceApplication.

(* ------------------------------------------------------------------ *)
(** ** Shutdown: how long it takes and when it succeeds *)

Section ShutdownBounds.

Import UserService.

(** Shutdown takes at most 30000 ms and ends with status 0 or 1, in both
    services, whatever the listener and Redis do. *)
Theorem shutdown_is_bounded (server : bool) (env : shutdown_env)
        (closing : option closing) :
  let e := process_exit (handleGracefulShutdown server env) in
  let g := process_exit (Gateway.handleGracefulShutdown closing) in
  ((exit_at e <= 30000)%N /\ (exit_code e = 0%Z \/ exit_code e = 1%Z))
  /\ ((exit_at g <= 30000)%N /\ (exit_code g = 0%Z \/ exit_code g = 1%Z)).
Proof.
  cbn zeta. split.
  - unfold process_exit, handleGracefulShutdown, on_server_closed, SHUTDOWN_TIMEOUT_MS.
    cbn [orderly forced].
    destruct server; [| cbn; split; [lia | now right]].
    destruct (server_close env) as [c|]; [| cbn; split; [lia | now right]].
    destruct (quit env) as [q|]; [| cbn; split; [lia | now right]].
    cbn [exit_at].
    destruct (closed_after c + quit_after q <? 30000)%N eqn:Ht; cbn.
    + apply N.ltb_lt in Ht. split; [lia | destruct (close_err c); tauto].
    + split; [lia | now right].
  - unfold process_exit, Gateway.handleGracefulShutdown, Gateway.on_server_closed,
      Gateway.SHUTDOWN_TIMEOUT_MS.
    cbn [orderly forced]. destruct closing as [c|]; cbn [option_map];
      [| cbn; split; [lia | now right]].
    cbn [exit_at].
    destruct (closed_after c <? 30000)%N eqn:Ht; cbn.
    + apply N.ltb_lt in Ht. split; [lia | destruct (close_err c); tauto].
    + split; [lia | now right].
Qed.

(** The data service exits with 0 exactly when the server had been set, the
    listener closed without an error and [redis.quit()] settled, all before
    the timer -- whether [quit] resolved or rejected.  The gateway exits
    with 0 exactly when the listener closed without an error before the
    timer. *)
Theorem shutdown_exit_zero_iff (server : bool) (env : shutdown_env)
        (closing : option closing) :
  (exit_code (process_exit (handleGracefulShutdown server env)) = 0%Z
   <-> server = true
       /\ exists c q, server_close env = Some c /\ quit env = Some q
                      /\ close_err c = false
                      /\ (closed_after c + quit_after q < 30000)%N)
  /\ (exit_code (process_exit (Gateway.handleGracefulShutdown closing)) = 0%Z
      <-> exists c, closing = Some c /\ close_err c = false
                    /\ (closed_after c < 30000)%N).
Proof.
  split.
  - unfold process_exit, handleGracefulShutdown, on_server_closed. cbn [orderly forced].
    split.
    + destruct server; [| cbn; discriminate].
      destruct (server_close env) as [c|]; [| cbn; discriminate].
      destruct (quit env) as [q|]; [| cbn; discriminate].
      cbn [exit_at]. unfold SHUTDOWN_TIMEOUT_MS.
      destruct (closed_after c + quit_after q <? 30000)%N eqn:Ht; [| cbn; discriminate].
      apply N.ltb_lt in Ht. cbn [exit_code].
      destruct (close_err c) eqn:Herr; [discriminate |].
      intros _. split; [reflexivity |]. now exists c, q.
    + intros (Hs & c & q & Hc & Hq & Herr & Ht). subst server.
      rewrite Hc, Hq. cbn [exit_at]. unfold SHUTDOWN_TIMEOUT_MS.
      apply N.ltb_lt in Ht. rewrite Ht. cbn. now rewrite Herr.
  - unfold process_exit, Gateway.handleGracefulShutdown, Gateway.on_server_closed.
    cbn [orderly forced]. split.
    + destruct closing as [c|]; cbn [option_map]; [| cbn; discriminate].
      cbn [exit_at]. unfold Gateway.SHUTDOWN_TIMEOUT_MS.
      destruct (closed_after c <? 30000)%N eqn:Ht; [| cbn; discriminate].
      apply N.ltb_lt in Ht. cbn [exit_code].
      destruct (close_err c) eqn:Herr; [discriminate |].
      intros _. now exists c.
    + intros (c & Hc & Herr & Ht). subst closing. cbn [option_map exit_at].
      unfold Gateway.SHUTDOWN_TIMEOUT_MS.
      apply N.ltb_lt in Ht. rewrite Ht. cbn. now rewrite Herr.
Qed.

Lemma shutdown_exit_zero_iff_witness :
  (* redis.quit() rejects after 40 ms: the exit status is 0 all the same *)
  exit_code (process_exit (handleGracefulShutdown true
               (mkShutdownEnv (Some (clean_close 1200)) (Some (mkQuitting 40 true))))) = 0%Z
  /\ exit_code (process_exit (Gateway.handleGracefulShutdown (Some (clean_close 10)))) = 0%Z.
Proof.
  split.
  - apply (proj1 (shutdown_exit_zero_iff true
             (mkShutdownEnv (Some (clean_close 1200)) (Some (mkQuitting 40 true))) None)).
    split; [reflexivity |].
    exists (clean_close 1200), (mkQuitting 40 true). now repeat split.
  - apply (proj2 (shutdown_exit_zero_iff true
             (mkShutdownEnv None None) (Some (clean_close 10)))).
    exists (clean_close 10). now repeat split.
Defined.

End ShutdownBounds.

(* ------------------------------------------------------------------ *)
(** ** Gateway: the other routes *)

Section GatewayOtherRoutes.

Import Gateway.

(** GET /api/users: a 2xx answer is sent on as 200 with its body; every
    other answer -- a 404 as well, this route passes no status through --
    and every failure to get one is answered 502 with a fixed body. *)
Theorem get_api_users_forwarding (net : network) :
  (forall t r, net get_users_request = Answers t r ->
     get_api_users net =
     Some (t, if validateStatus (up_status r)
              then mkResponse 200 (up_data r)
              else bad_gateway "Failed to fetch users from user-service"))
  /\ (forall t reason, net get_users_request = Refused t reason ->
      get_api_users net = Some (t, bad_gateway "Failed to fetch users from user-service")).
Proof.
  unfold get_api_users, axios_get. fold get_users_request. split.
  - intros t r Hl. rewrite Hl, axios_request_no_timeout_answers. cbn.
    now destruct (validateStatus (up_status r)).
  - intros t reason Hl. now rewrite Hl.
Qed.

Lemma get_api_users_forwarding_witness :
  get_api_users (fun _ => Answers 4 (mkUpstream 404 (ErrorBody "Not found")))
  = Some (4%N, bad_gateway "Failed to fetch users from user-service").
Proof.
  exact (proj1 (get_api_users_forwarding
                  (fun _ => Answers 4 (mkUpstream 404 (ErrorBody "Not found"))))
               4%N (mkUpstream 404 (ErrorBody "Not found")) eq_refl).
Defined.

(** The /:id routes on success: GET answers 200 with what axios hands on
    as [response.data], whatever 2xx status came -- for an upstream answer
    without a body that is the empty string, sent on as the JSON document
    [""] -- and DELETE answers 204 without a body whatever body came. *)
Theorem api_user_success (net : network) (i : string) (t : N) (status : Z) (sent : body) :
  validateStatus status = true ->
  (net (get_user_request i) = Answers t (mkUpstream status (axios_data sent)) ->
     get_api_user net i = Some (t, mkResponse 200 (axios_data sent))
     /\ (sent = NoBody -> get_api_user net i = Some (t, mkResponse 200 (StringBody ""))))
  /\ (net (delete_user_request i) = Answers t (mkUpstream status (axios_data sent)) ->
      delete_api_user net i = Some (t, mkResponse 204 NoBody)).
Proof.
  intros Hv.
  unfold get_api_user, delete_api_user, axios_get, axios_delete.
  fold (get_user_request i). fold (delete_user_request i).
  split; intros Hl; rewrite Hl, axios_request_no_timeout_answers; cbn [up_status];
    rewrite Hv; [| reflexivity].
  split; [reflexivity |]. now intros ->.
Qed.

Lemma api_user_success_witness :
  get_api_user (fun _ => Answers 2 (mkUpstream 204 (axios_data NoBody))) "42"
    = Some (2%N, mkResponse 200 (StringBody ""))
  /\ delete_api_user (fun _ => Answers 2 (mkUpstream 200 (UserBody ann))) "42"
    = Some (2%N, mkResponse 204 NoBody).
Proof.
  split.
  - exact (proj2 (proj1 (api_user_success
                    (fun _ => Answers 2 (mkUpstream 204 (axios_data NoBody))) "42"
                    2%N 204%Z NoBody eq_refl) eq_refl) eq_refl).
  - exact (proj2 (api_user_success (fun _ => Answers 2 (mkUpstream 200 (UserBody ann))) "42"
                    2%N 200%Z (UserBody ann) eq_refl) eq_refl).
Defined.

(** The four forwarding routes wait without a limit: an answer is sent on
    however late it comes, and while the upstream stays silent the gateway
    does not answer at all. *)
Theorem forwarding_waits_forever (net : network) (i : string) (b : create_body) :
  (net get_users_request = Silent -> get_api_users net = None)
  /\ (net (get_user_request i) = Silent -> get_api_user net i = None)
  /\ (net (post_users_request b) = Silent -> post_api_users net b = None)
  /\ (net (delete_user_request i) = Silent -> delete_api_user net i = None)
  /\ (forall t r,
        (net get_users_request = Answers t r ->
           exists res, get_api_users net = Some (t, res))
        /\ (net (get_user_request i) = Answers t r ->
           exists res, get_api_user net i = Some (t, res))
        /\ (net (post_users_request b) = Answers t r ->
           exists res, post_api_users net b = Some (t, res))
        /\ (net (delete_user_request i) = Answers t r ->
           exists res, delete_api_user net i = Some (t, res))).
Proof.
  unfold get_api_users, get_api_user, post_api_users, delete_api_user,
    axios_get, axios_post, axios_delete.
  fold get_users_request. fold (get_user_request i). fold (post_users_request b).
  fold (delete_user_request i).
  repeat split; intros Hl; rewrite Hl; try reflexivity;
    rewrite axios_request_no_timeout_answers; cbn; eauto.
Qed.

Lemma forwarding_waits_forever_witness :
  get_api_users (fun _ => Silent) = None
  /\ exists res, post_api_users (fun _ => Answers 600000 (mkUpstream 201 (UserBody ann)))
                                (mkBody (JS.Str "Ann") (JS.Str "ann@x.io") JS.Undefined)
                 = Some (600000%N, res).
Proof.
  split.
  - apply (proj1 (forwarding_waits_forever (fun _ => Silent) "42" no_body)). reflexivity.
  - apply (proj2 (proj2 (proj2 (proj2 (forwarding_waits_forever
             (fun _ => Answers 600000 (mkUpstream 201 (UserBody ann))) "42"
             (mkBody (JS.Str "Ann") (JS.Str "ann@x.io") JS.Undefined)))))
             600000%N (mkUpstream 201 (UserBody ann))).
    reflexivity.
Defined.

(** What the gateway answers by itself, at once and whatever the data
    service does: the 500 of the error middleware when [express.json()]
    rejects the body, the 404 of the last middleware for a path whose first
    segment is none of metrics, health and api, and its own /health and
    /health/live.  Routing ignores the case of letters: /HEALTH/READY runs
    the probe and /API/USERS the forwarding, as the lower-case paths do. *)
Theorem gateway_local_routes (decode : string -> option string) (net : network)
        (now : string) (m : method) (b : create_body) :
  (forall path,
     app decode net now (UserService.mkRaw m path UserService.BodyError)
     = Some (0%N, UserService.error_middleware))
  /\ (forall seg rest, ~ In (UserService.lower seg) gateway_prefixes ->
      app decode net now (UserService.mkRaw m (seg :: rest) (UserService.Body b))
      = Some (0%N, fallback_404))
  /\ (forall h, UserService.lower h = "health" ->
      app decode net now (UserService.mkRaw GET [h] (UserService.Body b))
      = Some (0%N, mkResponse 200 (HealthBody "healthy" "api-gateway" now)))
  /\ (forall h l, UserService.lower h = "health" -> UserService.lower l = "live" ->
      app decode net now (UserService.mkRaw GET [h; l] (UserService.Body b))
      = Some (0%N, mkResponse 200 (StatusBody "alive")))
  /\ (forall h r, UserService.lower h = "health" -> UserService.lower r = "ready" ->
      app decode net now (UserService.mkRaw GET [h; r] (UserService.Body b))
      = health_ready net)
  /\ (forall a u, UserService.lower a = "api" -> UserService.lower u = "users" ->
      app decode net now (UserService.mkRaw GET [a; u] (UserService.Body b))
      = get_api_users net).
Proof.
  unfold app.
  cbn [UserService.raw_body UserService.raw_method UserService.raw_path].
  unfold routes. cbn [UserService.route_request route_pattern route_method].
  split; [| split; [| split; [| split; [| split]]]].
  - reflexivity.
  - unfold gateway_prefixes. cbn [In]. intros seg rest Hnot.
    rewrite !match_path_other; try reflexivity;
      intros He; apply Hnot; rewrite He; cbn; tauto.
  - intros h Hh.
    rewrite (match_path_other "metrics") by (rewrite Hh; discriminate).
    rewrite (match_path_same "health") by (now rewrite Hh).
    reflexivity.
  - intros h l Hh Hl.
    rewrite (match_path_other "metrics") by (rewrite Hh; discriminate).
    rewrite !(match_path_same "health") by (now rewrite Hh).
    rewrite (match_path_end l) by (intros ->; discriminate).
    rewrite (match_path_same "live") by (now rewrite Hl).
    reflexivity.
  - intros h r Hh Hr.
    rewrite (match_path_other "metrics") by (rewrite Hh; discriminate).
    rewrite !(match_path_same "health") by (now rewrite Hh).
    rewrite (match_path_end r) by (intros ->; discriminate).
    rewrite (match_path_other "live") by (rewrite Hr; discriminate).
    rewrite (match_path_same "ready") by (now rewrite Hr).
    reflexivity.
  - intros a u Ha Hu.
    rewrite (match_path_other "metrics"), !(match_path_other "health")
      by (rewrite Ha; discriminate).
    rewrite !(match_path_same "api") by (now rewrite Ha).
    rewrite !(match_path_same "users") by (now rewrite Hu).
    reflexivity.
Qed.

Lemma gateway_local_routes_witness :
  app JS.decodeURIComponent (fun _ => Silent) "2024-05-01T10:00:00.000Z"
      (UserService.mkRaw GET ["apis"; "users"] (UserService.Body no_body))
    = Some (0%N, fallback_404)
  /\ app JS.decodeURIComponent (fun _ => Silent) "2024-05-01T10:00:00.000Z"
         (UserService.mkRaw GET ["Health"; "LIVE"] (UserService.Body no_body))
    = Some (0%N, mkResponse 200 (StatusBody "alive"))
  /\ app JS.decodeURIComponent (fun _ => Silent) "2024-05-01T10:00:00.000Z"
         (UserService.mkRaw GET ["API"; "users"] (UserService.Body no_body))
    = None.
Proof.
  split; [| split].
  - apply (proj1 (proj2 (gateway_local_routes JS.decodeURIComponent (fun _ => Silent)
                           "2024-05-01T10:00:00.000Z" GET no_body))).
    cbn. intros [H | [H | [H | []]]]; discriminate.
  - apply (proj1 (proj2 (proj2 (proj2 (gateway_local_routes JS.decodeURIComponent
                           (fun _ => Silent) "2024-05-01T10:00:00.000Z" GET no_body)))));
      reflexivity.
  - rewrite (proj2 (proj2 (proj2 (proj2 (proj2 (gateway_local_routes JS.decodeURIComponent
                           (fun _ => Silent) "2024-05-01T10:00:00.000Z" GET no_body)))))
                   "API" "users" eq_refl eq_refl).
    reflexivity.
Defined.

End GatewayOtherRoutes.

(* ------------------------------------------------------------------ *)
(** ** Gateway and data service together *)

Section EndToEnd.

Import Gateway.

(** The gateway gets the response of the handler the data service runs
    for its request. *)
Lemma deployed_handler (latency : N) (w : UserService.world) (r : request)
      (h : UserService.M response) (route : string) (res : response) :
  UserService.app JS.decodeURIComponent (received r) []
  = UserService.bind h (fun res =>
      UserService.ret (res, [UserService.mkLabels (req_method r) route (statusCode res)])) ->
  result h w = UserService.Returned res ->
  deployed latency w r
  = Answers latency (mkUpstream (statusCode res) (axios_data (payload res))).
Proof.
  intros Happ Hres. unfold deployed. rewrite Happ.
  unfold UserService.bind, UserService.ret. unfold result in Hres.
  destruct (h w) as [[res' | e] w']; cbn in Hres; [| discriminate].
  now inversion Hres.
Qed.

(** With a plain identifier the two /:id requests of the gateway reach the
    /:id handlers of the data service. *)
Lemma deployed_get_user (latency : N) (w : UserService.world) (i : string) (res : response) :
  plain_id i = true ->
  result (UserService.get_user i) w = UserService.Returned res ->
  deployed latency w (get_user_request i)
  = Answers latency (mkUpstream (statusCode res) (axios_data (payload res))).
Proof.
  intros Hid. apply (deployed_handler latency w _ _ "/users/:id").
  unfold get_user_request. rewrite (url_path_plain i Hid).
  apply plain_id_spec in Hid as (Hne & Hp).
  unfold UserService.app, received.
  cbn [UserService.raw_body UserService.raw_method UserService.raw_path
       req_method req_path req_body].
  rewrite route_request_users_id by (reflexivity || assumption).
  now rewrite (decodeURIComponent_plain i Hp).
Qed.

Lemma deployed_delete_user (latency : N) (w : UserService.world) (i : string)
      (res : response) :
  plain_id i = true ->
  result (UserService.delete_user i) w = UserService.Returned res ->
  deployed latency w (delete_user_request i)
  = Answers latency (mkUpstream (statusCode res) (axios_data (payload res))).
Proof.
  intros Hid. apply (deployed_handler latency w _ _ "/users/:id").
  unfold delete_user_request. rewrite (url_path_plain i Hid).
  apply plain_id_spec in Hid as (Hne & Hp).
  unfold UserService.app, received.
  cbn [UserService.raw_body UserService.raw_method UserService.raw_path
       req_method req_path req_body].
  rewrite route_request_users_id by (reflexivity || assumption).
  now rewrite (decodeURIComponent_plain i Hp).
Qed.

Lemma deployed_get_users (latency : N) (w : UserService.world) (res : response) :
  result UserService.get_users w = UserService.Returned res ->
  deployed latency w get_users_request
  = Answers latency (mkUpstream (statusCode res) (axios_data (payload res))).
Proof. now apply (deployed_handler latency w _ _ "/users"). Qed.

Lemma deployed_post_users (latency : N) (w : UserService.world) (b : create_body)
      (res : response) :
  result (UserService.post_users (json_body b)) w = UserService.Returned res ->
  deployed latency w (post_users_request b)
  = Answers latency (mkUpstream (statusCode res) (axios_data (payload res))).
Proof. now apply (deployed_handler latency w _ _ "/users"). Qed.

(** The gateway gives a request for /api/users/:id with a plain identifier
    to the handler of its method. *)
Lemma app_api_user (net : network) (now i : string) :
  plain_id i = true ->
  app JS.decodeURIComponent net now (api_get_user_request i) = get_api_user net i
  /\ app JS.decodeURIComponent net now (api_delete_user_request i) = delete_api_user net i.
Proof.
  intros Hid. apply plain_id_spec in Hid as (Hne & Hp).
  assert (Hempty : (i =? "") = false) by now apply String.eqb_neq.
  unfold app, api_get_user_request, api_delete_user_request.
  cbn [UserService.raw_body UserService.raw_method UserService.raw_path].
  unfold routes. cbn [UserService.route_request route_pattern route_method].
  rewrite !(match_path_other "metrics"), !(match_path_other "health")
    by (vm_compute; discriminate).
  rewrite !(match_path_same "api"), !(match_path_same "users") by reflexivity.
  rewrite !(match_path_end i) by assumption.
  cbn [UserService.match_path UserService.decode_params]. rewrite Hempty.
  cbn [UserService.decode_params].
  rewrite (decodeURIComponent_plain i Hp). split; reflexivity.
Qed.

Lemma get_users_listed (w : UserService.world) :
  redis_up 1 w ->
  result UserService.get_users w
  = UserService.Returned (mkResponse 200 (UsersBody (stored w) (List.length (stored w)))).
Proof.
  intros Hup. apply redis_up_0 in Hup.
  unfold result, stored, UserService.get_users, UserService.try_catch, UserService.bind,
    UserService.redis_get, UserService.issue, UserService.ret.
  now rewrite Hup.
Qed.

(** Through the gateway, reading, for an identifier of letters, digits and
    hyphens: GET /api/users/:id gives 200 with the first stored record that
    has the identifier and 404 when there is none; GET /api/users gives 200
    with the collection and its length; when Redis rejects the GET of the
    data service, its 500 becomes a 502. *)
Theorem gateway_reads_end_to_end (latency : N) (w : UserService.world)
        (now i : string) :
  plain_id i = true ->
  (redis_up 1 w ->
     (forall l1 u l2, stored w = l1 ++ u :: l2 -> id u = i ->
        (forall x, In x l1 -> id x <> i) ->
        app JS.decodeURIComponent (deployed latency w) now (api_get_user_request i)
        = Some (latency, mkResponse 200 (UserBody u)))
     /\ ((forall u, In u (stored w) -> id u <> i) ->
        app JS.decodeURIComponent (deployed latency w) now (api_get_user_request i)
        = Some (latency, mkResponse 404 (ErrorBody "User not found")))
     /\ app JS.decodeURIComponent (deployed latency w) now api_get_users_request
        = Some (latency, mkResponse 200 (UsersBody (stored w) (List.length (stored w)))))
  /\ (UserService.outage w (List.length (UserService.trace w)) = true ->
      app JS.decodeURIComponent (deployed latency w) now (api_get_user_request i)
      = Some (latency, bad_gateway "Failed to fetch user from user-service")
      /\ app JS.decodeURIComponent (deployed latency w) now api_get_users_request
      = Some (latency, bad_gateway "Failed to fetch users from user-service")).
Proof.
  intros Hid.
  rewrite (proj1 (app_api_user (deployed latency w) now i Hid)).
  change (get_api_user (deployed latency w) i)
    with (respond get_api_user_on (axios_request 0 (deployed latency w (get_user_request i)))).
  change (app JS.decodeURIComponent (deployed latency w) now api_get_users_request)
    with (respond get_api_users_on (axios_request 0 (deployed latency w get_users_request))).
  split.
  - intros Hup. split; [| split].
    + intros l1 u l2 Husers Hu Hl1.
      rewrite (deployed_get_user latency w i _ Hid
                 (get_user_found i w l1 l2 u Hup Husers Hu Hl1)).
      reflexivity.
    + intros Hnone.
      rewrite (deployed_get_user latency w i _ Hid (get_user_missing i w Hup Hnone)).
      reflexivity.
    + rewrite (deployed_get_users latency w _ (get_users_listed w Hup)).
      reflexivity.
  - intros Hout.
    destruct (store_failure_is_500 w i no_body Hout) as (Hlist & Hget & _).
    rewrite (deployed_get_user latency w i _ Hid Hget).
    rewrite (deployed_get_users latency w _ Hlist).
    split; reflexivity.
Qed.

Lemma gateway_reads_end_to_end_witness :
  app JS.decodeURIComponent (deployed 8 (boot (holding [ann; bea]) no_outage)) "2024-05-01T10:00:00.000Z"
        (api_get_user_request "22222222-bbbb")
    = Some (8%N, mkResponse 200 (UserBody bea))
  /\ app JS.decodeURIComponent (deployed 8 (boot (holding [ann; bea]) redis_down)) "2024-05-01T10:00:00.000Z"
           api_get_users_request
    = Some (8%N, bad_gateway "Failed to fetch users from user-service").
Proof.
  split.
  - apply (proj1 (proj1 (gateway_reads_end_to_end 8 (boot (holding [ann; bea]) no_outage)
                           "2024-05-01T10:00:00.000Z" "22222222-bbbb" eq_refl)
                        (no_outage_redis_up 1 _)) [ann] bea []).
    + reflexivity.
    + reflexivity.
    + intros x [Hx | []]. subst x. discriminate.
  - apply (proj2 (gateway_reads_end_to_end 8 (boot (holding [ann; bea]) redis_down)
                    "2024-05-01T10:00:00.000Z" "22222222-bbbb" eq_refl)).
    reflexivity.
Defined.

(** Through the gateway, creating: the data service receives the body as
    JSON writes it (a number outside the range of a double as null).  POST
    /api/users gives 201 with the created record when the data service
    created one; a body the data service rejects with 400, an e-mail it
    rejects with 409 and a store failure all come back as the same 502. *)
Theorem gateway_create_end_to_end (latency : N) (w : UserService.world)
        (now : string) (b : create_body) :
  (JS.truthy (JS.json (body_name b)) = false
   \/ JS.truthy (JS.json (body_email b)) = false ->
     app JS.decodeURIComponent (deployed latency w) now (api_post_users_request b)
     = Some (latency, bad_gateway "Failed to create user"))
  /\ (JS.truthy (JS.json (body_name b)) = true ->
      JS.truthy (JS.json (body_email b)) = true ->
      (redis_up 1 w ->
         (exists u, In u (stored w)
                    /\ JS.strict_eq (email u) (JS.json (body_email b)) = true) ->
         app JS.decodeURIComponent (deployed latency w) now (api_post_users_request b)
         = Some (latency, bad_gateway "Failed to create user"))
      /\ (UserService.outage w (List.length (UserService.trace w)) = true ->
         app JS.decodeURIComponent (deployed latency w) now (api_post_users_request b)
         = Some (latency, bad_gateway "Failed to create user"))
      /\ (redis_up 2 w ->
         (forall u, In u (stored w) ->
                    JS.strict_eq (email u) (JS.json (body_email b)) = false) ->
         exists u,
           app JS.decodeURIComponent (deployed latency w) now (api_post_users_request b)
           = Some (latency, mkResponse 201 (UserBody u))
           /\ name u = JS.json (body_name b) /\ email u = JS.json (body_email b))).
Proof.
  change (app JS.decodeURIComponent (deployed latency w) now (api_post_users_request b))
    with (respond post_api_users_on
            (axios_request 0 (deployed latency w (post_users_request b)))).
  split.
  - intros Hfalsy.
    assert (Hres : result (UserService.post_users (json_body b)) w
                   = UserService.Returned bad_request).
    { unfold result. now rewrite post_users_rejects_falsy. }
    rewrite (deployed_post_users latency w b _ Hres).
    reflexivity.
  - intros Hn He. split; [| split].
    + intros Hup (u & Hin & Heq).
      destruct (post_users_duplicate (json_body b) w u Hn He Hup Hin Heq) as (Hres & _).
      rewrite (deployed_post_users latency w b _ Hres).
      reflexivity.
    + intros Hout.
      destruct (store_failure_is_500 w "" (json_body b) Hout) as (_ & _ & _ & _ & Hpost).
      destruct (Hpost Hn He) as (Hres & _).
      rewrite (deployed_post_users latency w b _ Hres).
      reflexivity.
    + intros Hup Hnone.
      destruct (post_users_run (json_body b) w Hn He Hup Hnone) as (Hres & _).
      exists (created w (json_body b)).
      rewrite (deployed_post_users latency w b _ Hres).
      split; [reflexivity |].
      unfold created. cbn. now rewrite !json_idempotent.
Qed.

Lemma gateway_create_end_to_end_witness :
  (* a name the body parser read as Infinity reaches the data service as null *)
  app JS.decodeURIComponent (deployed 8 (boot (holding [ann]) no_outage)) "2024-05-01T10:00:00.000Z"
        (api_post_users_request
           (mkBody (JS.Num PrimFloat.infinity) (JS.Str "zoe@x.io") JS.Undefined))
    = Some (8%N, bad_gateway "Failed to create user")
  /\ exists u,
       app JS.decodeURIComponent (deployed 8 (boot (holding [ann]) no_outage)) "2024-05-01T10:00:00.000Z"
             (api_post_users_request (mkBody (JS.Str "Bea") (JS.Str "bea@x.io") JS.Undefined))
       = Some (8%N, mkResponse 201 (UserBody u))
       /\ name u = JS.Str "Bea" /\ email u = JS.Str "bea@x.io".
Proof.
  split.
  - apply (proj1 (gateway_create_end_to_end 8 (boot (holding [ann]) no_outage)
                    "2024-05-01T10:00:00.000Z"
                    (mkBody (JS.Num PrimFloat.infinity) (JS.Str "zoe@x.io") JS.Undefined))).
    left. reflexivity.
  - apply (proj2 (proj2 (proj2 (gateway_create_end_to_end 8 (boot (holding [ann]) no_outage)
                    "2024-05-01T10:00:00.000Z"
                    (mkBody (JS.Str "Bea") (JS.Str "bea@x.io") JS.Undefined))
                    eq_refl eq_refl))).
    + apply no_outage_redis_up.
    + intros u [Hu | []]. now subst u.
Defined.

(** Through the gateway, deleting, for an identifier of letters, digits and
    hyphens: DELETE /api/users/:id gives 204 without a body when the data
    service deleted the record, 404 when no stored record has the
    identifier, and 502 when Redis rejects the GET. *)
Theorem gateway_delete_end_to_end (latency : N) (w : UserService.world)
        (now i : string) :
  plain_id i = true ->
  (redis_up 2 w ->
     forall l1 u l2, stored w = l1 ++ u :: l2 -> id u = i ->
       (forall x, In x l1 -> id x <> i) ->
       app JS.decodeURIComponent (deployed latency w) now (api_delete_user_request i)
       = Some (latency, mkResponse 204 NoBody))
  /\ (redis_up 1 w -> (forall u, In u (stored w) -> id u <> i) ->
      app JS.decodeURIComponent (deployed latency w) now (api_delete_user_request i)
      = Some (latency, mkResponse 404 (ErrorBody "User not found")))
  /\ (UserService.outage w (List.length (UserService.trace w)) = true ->
      app JS.decodeURIComponent (deployed latency w) now (api_delete_user_request i)
      = Some (latency, bad_gateway "Failed to delete user")).
Proof.
  intros Hid.
  rewrite (proj2 (app_api_user (deployed latency w) now i Hid)).
  change (delete_api_user (deployed latency w) i)
    with (respond delete_api_user_on
            (axios_request 0 (deployed latency w (delete_user_request i)))).
  split; [| split].
  - intros Hup l1 u l2 Husers Hu Hl1.
    destruct (delete_user_run i w l1 l2 u Hup Husers Hu Hl1) as (Hres & _).
    rewrite (deployed_delete_user latency w i _ Hid Hres).
    reflexivity.
  - intros Hup Hnone.
    rewrite (deployed_delete_user latency w i _ Hid (delete_user_missing i w Hup Hnone)).
    reflexivity.
  - intros Hout.
    destruct (store_failure_is_500 w i no_body Hout) as (_ & _ & Hres & _).
    rewrite (deployed_delete_user latency w i _ Hid Hres).
    reflexivity.
Qed.

Lemma gateway_delete_end_to_end_witness :
  app JS.decodeURIComponent (deployed 8 (boot (holding [ann; bea]) no_outage)) "2024-05-01T10:00:00.000Z"
        (api_delete_user_request "22222222-bbbb")
    = Some (8%N, mkResponse 204 NoBody)
  /\ app JS.decodeURIComponent (deployed 8 (boot (holding [ann; bea]) no_outage)) "2024-05-01T10:00:00.000Z"
           (api_delete_user_request "33333333-cccc")
    = Some (8%N, mkResponse 404 (ErrorBody "User not found")).
Proof.
  split.
  - apply (proj1 (gateway_delete_end_to_end 8 (boot (holding [ann; bea]) no_outage)
                    "2024-05-01T10:00:00.000Z" "22222222-bbbb" eq_refl)
                 (no_outage_redis_up 2 _) [ann] bea []).
    + reflexivity.
    + reflexivity.
    + intros x [Hx | []]. subst x. discriminate.
  - apply (proj1 (proj2 (gateway_delete_end_to_end 8 (boot (holding [ann; bea]) no_outage)
                    "2024-05-01T10:00:00.000Z" "33333333-cccc" eq_refl))).
    + apply no_outage_redis_up.
    + intros u [Hu | [Hu | []]]; subst u; discriminate.
Defined.

(** The identifier is pasted into the URL as text, after the gateway has
    decoded it: what follows a [?] or a [#] in it is cut off, and [..]
    leaves /users.  So /api/users/<id>%3Fx is a request for the record
    <id>, for DELETE as for GET, and GET /api/users/..%2Fhealth is answered
    by the /health route of the data service. *)
Theorem pasted_identifier (i q : string) :
  plain_id i = true -> plain q = true ->
  get_user_request (i ++ "?" ++ q) = get_user_request i
  /\ delete_user_request (i ++ "?" ++ q) = delete_user_request i
  /\ get_user_request (i ++ "#" ++ q) = get_user_request i
  /\ get_user_request "../health" = health_probe
  /\ (forall latency w now,
        app JS.decodeURIComponent (deployed latency w) now
            (api_get_user_request "..%2Fhealth")
        = Some (latency,
                mkResponse 200 (HealthBody "healthy" "user-service"
                                  (UserService.clock_src w (UserService.clock_used w))))).
Proof.
  intros Hid Hq.
  unfold get_user_request, delete_user_request.
  change (i ++ "?" ++ q)%string with (i ++ String "?" q)%string.
  change (i ++ "#" ++ q)%string with (i ++ String "#" q)%string.
  rewrite !(url_path_cut i q) by (assumption || reflexivity).
  rewrite (url_path_plain i Hid).
  repeat split.
Qed.

Lemma pasted_identifier_witness :
  delete_user_request "11111111-aaaa?x" = delete_user_request "11111111-aaaa"
  /\ app JS.decodeURIComponent (deployed 8 (boot (holding [ann]) no_outage))
         "2024-05-01T10:00:00.000Z" (api_delete_user_request "11111111-aaaa%3Fx")
     = Some (8%N, mkResponse 204 NoBody).
Proof.
  split.
  - exact (proj1 (proj2 (pasted_identifier "11111111-aaaa" "x" eq_refl eq_refl))).
  - reflexivity.
Defined.

End EndToEnd.

